(** * mobibook.py: Kindle Mobipocket metadata extraction

    A shallow embedding of [src/mobibook.py] (class [MobiBook]) and the
    properties of its decoding pipeline: the PDB section table, the fixed
    MOBI header fields of section 0, the EXTH record walk, attribute-style
    field lookup and title resolution.

    Conventions of the embedding.
    - A Python 2 [str] is a list of bytes; a [unicode] object is a list of
      code points.
    - Python integers are unbounded, hence [Z]; no wrap-around occurs
      anywhere in the program.
    - A raised exception is the [Raise] case of [result]; the exception
      classes that the program can raise are the constructors of [exn].
    - [xrange n] is taken on a platform whose C long has 64 bits, so that
      every count that fits 32 bits is accepted. *)

From Stdlib Require Import ZArith Lia List Bool Ascii String.
From Stdlib Require Import Strings.Byte.
From Stdlib Require Import DecimalString Sorted.
From stdpp Require Import base option list gmap strings.

Local Open Scope Z_scope.

(** ** Exceptions and results *)

Inductive exn : Set :=
| MobiException        (* raise MobiException("invalid file format") *)
| StructError          (* struct.error *)
| IndexError
| AttributeError
| UnicodeDecodeError.

Inductive result (A : Type) : Type :=
| Ok (a : A)
| Raise (e : exn).
Arguments Ok {A} a.
Arguments Raise {A} e.

#[global] Instance result_ret : MRet result := fun _ a => Ok a.
#[global] Instance result_bind : MBind result := fun _ _ f m =>
  match m with
  | Ok a => f a
  | Raise e => Raise e
  end.

(** ** Byte strings, slices and indexing *)

Abbreviation bytes := (list byte).

#[global] Instance byte_eq_decision : EqDecision byte := Byte.byte_eq_dec.

Definition byte_val (b : byte) : Z := Z.of_N (Byte.to_N b).

Definition len {A} (l : list A) : Z := Z.of_nat (List.length l).

(** [s[a:b]] with Python's treatment of negative and out-of-range bounds. *)
Definition slice_bound {A} (l : list A) (i : Z) : Z :=
  let i' := if i <? 0 then i + len l else i in
  Z.max 0 (Z.min i' (len l)).

Definition py_slice {A} (l : list A) (a b : Z) : list A :=
  let a' := slice_bound l a in
  let b' := slice_bound l b in
  take (Z.to_nat (b' - a')) (drop (Z.to_nat a') l).

(** [s[a:]] *)
Definition py_slice_from {A} (l : list A) (a : Z) : list A :=
  drop (Z.to_nat (slice_bound l a)) l.

(** [l[i]]: a negative index counts from the end, an index outside the
    list raises IndexError. *)
Definition py_index {A} (l : list A) (i : Z) : result A :=
  let i' := if i <? 0 then i + len l else i in
  if i' <? 0 then Raise IndexError
  else match l !! Z.to_nat i' with
       | Some x => Ok x
       | None => Raise IndexError
       end.

Definition bytes_of_string (s : string) : bytes := list_byte_of_string s.

(** ** struct.unpack for the big-endian formats the program uses *)

Definition be_uint (bs : bytes) : Z :=
  fold_left (fun acc b => acc * 256 + byte_val b) bs 0.

(** struct.unpack raises struct.error unless the string has exactly the
    size of the format. *)
Definition unpack_H (s : bytes) : result Z :=
  if len s =? 2 then Ok (be_uint s) else Raise StructError.

Definition unpack_L (s : bytes) : result Z :=
  if len s =? 4 then Ok (be_uint s) else Raise StructError.

Definition unpack_I := unpack_L.

Definition unpack_Q (s : bytes) : result Z :=
  if len s =? 8 then Ok (be_uint s) else Raise StructError.

Definition unpack_II (s : bytes) : result (Z * Z) :=
  if len s =? 8 then Ok (be_uint (take 4 s), be_uint (drop 4 s))
  else Raise StructError.

Definition unpack_LLLL (s : bytes) : result (Z * Z * Z * Z) :=
  if len s =? 16
  then Ok (be_uint (take 4 s), be_uint (take 4 (drop 4 s)),
           be_uint (take 4 (drop 8 s)), be_uint (drop 12 s))
  else Raise StructError.

Definition unpack_LBBBB (s : bytes) : result (Z * Z * Z * Z * Z) :=
  if len s =? 8
  then Ok (be_uint (take 4 s), be_uint (take 1 (drop 4 s)),
           be_uint (take 1 (drop 5 s)), be_uint (take 1 (drop 6 s)),
           be_uint (drop 7 s))
  else Raise StructError.

(** struct.unpack_from('>L', buf, off): needs at least 4 bytes from [off]. *)
Definition unpack_from_L (buf : bytes) (off : Z) : result Z :=
  if len buf - off <? 4 then Raise StructError
  else Ok (be_uint (py_slice buf off (off + 4))).

(** ** Module constants *)

(** EXTH_MAP_STRINGS, in source order. *)
Definition EXTH_MAP_STRINGS : list (Z * string) :=
  [ (100, "Creator"); (101, "Publisher"); (102, "Imprint");
    (103, "Description"); (104, "ISBN"); (105, "Subject");
    (106, "Published"); (107, "Review"); (108, "Contributor");
    (109, "Rights"); (110, "SubjectCode"); (111, "Type");
    (112, "Source"); (113, "ASIN"); (116, "StartOffset");
    (118, "Price"); (119, "Currency"); (201, "CoverOffset");
    (406, "IsLibraryRental"); (503, "UpdatedTitle") ]%string.

(** str.lower() on ASCII letters. *)
Definition lower_ascii (c : ascii) : ascii :=
  let n := nat_of_ascii c in
  if (Nat.leb 65 n && Nat.leb n 90)%bool then ascii_of_nat (n + 32) else c.

Fixpoint lower (s : string) : string :=
  match s with
  | EmptyString => EmptyString
  | String c s' => String (lower_ascii c) (lower s')
  end.

(** dict([(v.lower(), k) for k, v in EXTH_MAP_STRINGS.items()]): a later
    pair overrides an earlier one with the same key. *)
Definition EXTH_RMAP_STRINGS : gmap string Z :=
  fold_left (fun m kv => <[lower kv.2 := kv.1]> m) EXTH_MAP_STRINGS ∅.

(** The struct formats of EXTH_MAP_CONVERSIONS. *)
Inductive conversion : Set := FmtI | FmtQ.

Definition EXTH_MAP_CONVERSIONS (tag : Z) : option conversion :=
  if tag =? 116 then Some FmtI
  else if tag =? 201 then Some FmtI
  else if tag =? 406 then Some FmtQ
  else None.

Inductive encoding : Set := Windows1252 | Utf8.

Definition DEFAULT_ENCODING : encoding := Windows1252.

(** CODEPAGE_MAP.get(codepage, DEFAULT_ENCODING) *)
Definition CODEPAGE_MAP_get (codepage : Z) : encoding :=
  if codepage =? 1252 then Windows1252
  else if codepage =? 65001 then Utf8
  else DEFAULT_ENCODING.

(** ** The MobiBook object *)

(** A section description tuple [(offset, flags, uniqueID)]. *)
Definition section_desc : Type := Z * Z * Z.

Definition sec_offset (s : section_desc) : Z := s.1.1.

(** The attributes of a [MobiBook] instance.  The attributes that
    [__init__] leaves to [parseMobiHeader] ([mobi_codepage], [exth_off],
    [drm_ptr], [drm_count], [drm_size]) hold 0 until they are assigned; an
    instance is only ever handed out after [parseMobiHeader] has returned. *)
Record MobiBook : Type := mkMobiBook {
  data_file : bytes;
  header : bytes;
  magic : bytes;
  crypto_type : Z;
  num_sections : Z;
  sections : list section_desc;
  record0 : bytes;
  compression : Z;
  txt_records : Z;
  firstimg : Z;
  extra_data_flags : Z;
  meta_array : gmap Z bytes;
  mobi_length : Z;
  mobi_version : Z;
  print_replica : bool;
  mobi_codepage : Z;
  exth_off : Z;
  drm_ptr : Z;
  drm_count : Z;
  drm_size : Z
}.

(** *** parseSections *)

(** The body of [for i in xrange(num_sections)], for the [k] indices from
    [i] on. *)
Fixpoint parseSections_loop (data : bytes) (i : Z) (k : nat)
    (sections : list section_desc) : result (list section_desc) :=
  match k with
  | O => Ok sections
  | S k' =>
      '(offset, a1, a2, a3, a4) ←
        unpack_LBBBB (py_slice data (78 + i * 8) (78 + i * 8 + 8));
      let flags := a1 in
      let uniqueID := Z.lor (Z.lor (Z.shiftl a2 16) (Z.shiftl a3 8)) a4 in
      parseSections_loop data (i + 1) k' (sections ++ [(offset, flags, uniqueID)])
  end.

(** Returns [(num_sections, sections)]. *)
Definition parseSections (data header : bytes)
    : result (Z * list section_desc) :=
  num_sections ← unpack_H (py_slice header 76 78);
  sections ← parseSections_loop data 0 (Z.to_nat num_sections) [];
  Ok (num_sections, sections).

(** *** loadSection *)

Definition loadSection (data : bytes) (num_sections : Z)
    (sections : list section_desc) (section : Z) : result bytes :=
  endoff ← (if section + 1 =? num_sections then Ok (len data)
            else s ← py_index sections (section + 1); Ok (sec_offset s));
  s ← py_index sections section;
  let off := sec_offset s in
  Ok (py_slice data off endoff).

(** *** processEXTH and storeEXTH *)

(** What [processEXTH] returns: it falls off a bare [return] when the block
    is not found, returns False from the exception handler, and True
    otherwise. *)
Inductive pyret : Set := RetNone | RetFalse | RetTrue.

(** Truth value, as tested by [not]. *)
Definition truthy (r : pyret) : bool :=
  match r with RetTrue => true | _ => false end.

(** The record loop: [k] iterations from cursor [pos].  [callback] acts on
    a state [S]; what it has done before a failing read stays done.  The
    second component is the final cursor, or the exception that left the
    loop. *)
Fixpoint exth_loop {S : Type} (callback : Z -> Z -> bytes -> S -> S)
    (exth : bytes) (k : nat) (pos : Z) (s : S) : S * result Z :=
  match k with
  | O => (s, Ok pos)
  | S k' =>
      match unpack_II (py_slice exth pos (pos + 8)) with
      | Raise e => (s, Raise e)
      | Ok (exth_type, size) =>
          let content := py_slice exth (pos + 8) (pos + size) in
          exth_loop callback exth k' (pos + size) (callback exth_type pos content s)
      end
  end.

Definition EXTH_tag : bytes := bytes_of_string "EXTH".

Definition processEXTH {S : Type} (record0 : bytes) (exth_off : Z)
    (callback : Z -> Z -> bytes -> S -> S) (s : S) : S * pyret :=
  let exth := py_slice_from record0 exth_off in
  if (len exth <? 12) || negb (bool_decide (py_slice exth 0 4 = EXTH_tag))
  then (s, RetNone)
  else
    match unpack_I (py_slice exth 8 12) with
    | Raise _ => (s, RetFalse)
    | Ok nitems =>
        match exth_loop callback exth (Z.to_nat nitems) 12 s with
        | (s', Raise _) => (s', RetFalse)
        | (s', Ok _) => (s', RetTrue)
        end
    end.

(** [self.meta_array[exth_type] = content] *)
Definition storeEXTH (exth_type pos : Z) (content : bytes)
    (meta_array : gmap Z bytes) : gmap Z bytes :=
  <[exth_type := content]> meta_array.

(** *** parseMobiHeader *)

(** Lines 105-106: the flags are read only under the guard. *)
Definition read_extra_data_flags (record0 : bytes)
    (mobi_length mobi_version current : Z) : result Z :=
  if (0xE4 <=? mobi_length) && (5 <=? mobi_version)
  then unpack_H (py_slice record0 0xF2 0xF4)
  else Ok current.

(** Lines 114-117: the EXTH block is parsed when flag bit 0x40 is set, and
    a result that is not true empties the index. *)
Definition parse_exth_if_flagged (record0 : bytes) (exth_off exth_flag : Z)
    (meta_array : gmap Z bytes) : gmap Z bytes :=
  if negb (Z.land exth_flag 0x40 =? 0)
  then
    let '(meta_array', r) := processEXTH record0 exth_off storeEXTH meta_array in
    if negb (truthy r) then ∅ else meta_array'
  else meta_array.

Definition parseMobiHeader (self : MobiBook) : result MobiBook :=
  let record0 := self.(record0) in
  mobi_length ← unpack_L (py_slice record0 0x14 0x18);
  mobi_codepage ← unpack_L (py_slice record0 0x1c 0x20);
  mobi_version ← unpack_L (py_slice record0 0x68 0x6C);
  let exth_off := mobi_length + 16 in
  firstimg ← unpack_from_L record0 0x6C;
  extra_data_flags ←
    read_extra_data_flags record0 mobi_length mobi_version
      self.(extra_data_flags);
  crypto_type ← unpack_H (py_slice record0 0xC (0xC + 2));
  '(drm_ptr, drm_count, drm_size, _) ←
    unpack_LLLL (py_slice record0 0xA8 (0xA8 + 16));
  exth_flag ← unpack_L (py_slice record0 0x80 0x84);
  let meta_array :=
    parse_exth_if_flagged record0 exth_off exth_flag self.(meta_array) in
  Ok {| data_file := self.(data_file);
        header := self.(header);
        magic := self.(magic);
        crypto_type := crypto_type;
        num_sections := self.(num_sections);
        sections := self.(sections);
        record0 := record0;
        compression := self.(compression);
        txt_records := self.(txt_records);
        firstimg := firstimg;
        extra_data_flags := extra_data_flags;
        meta_array := meta_array;
        mobi_length := mobi_length;
        mobi_version := mobi_version;
        print_replica := self.(print_replica);
        mobi_codepage := mobi_codepage;
        exth_off := exth_off;
        drm_ptr := drm_ptr;
        drm_count := drm_count;
        drm_size := drm_size |}.

(** *** The constructor *)

Definition BOOKMOBI : bytes := bytes_of_string "BOOKMOBI".

(** [MobiBook(infile)], on the bytes that [infile.read()] returns. *)
Definition __init__ (data : bytes) : result MobiBook :=
  let header := py_slice data 0 78 in
  let magic := py_slice header 0x3C (0x3C + 8) in
  if negb (bool_decide (magic = BOOKMOBI)) then Raise MobiException
  else
    '(num_sections, sections) ← parseSections data header;
    record0 ← loadSection data num_sections sections 0;
    compression ← unpack_H (py_slice record0 0x0 (0x0 + 2));
    txt_records ← unpack_H (py_slice record0 0x8 (0x8 + 2));
    parseMobiHeader
      {| data_file := data;
         header := header;
         magic := magic;
         crypto_type := -1;
         num_sections := num_sections;
         sections := sections;
         record0 := record0;
         compression := compression;
         txt_records := txt_records;
         firstimg := txt_records + 1;
         extra_data_flags := 0;
         meta_array := ∅;
         mobi_length := 0;
         mobi_version := -1;
         print_replica := false;
         mobi_codepage := 0;
         exth_off := 0;
         drm_ptr := 0;
         drm_count := 0;
         drm_size := 0 |}.

(** ** Text: codecs, str(), strip() and split() *)

(** A [unicode] object: its code points. *)
Abbreviation unicode := (list Z).

(** The Windows-1252 decoding table of Python's [encodings/cp1252.py];
    bytes 0x81, 0x8D, 0x8F, 0x90 and 0x9D are undefined. *)
Definition cp1252_char (c : Z) : option Z :=
  if (c <? 0x80) || (0xA0 <=? c) then Some c
  else nth (Z.to_nat (c - 0x80))
    [ Some 0x20AC; None;        Some 0x201A; Some 0x0192;
      Some 0x201E; Some 0x2026; Some 0x2020; Some 0x2021;
      Some 0x02C6; Some 0x2030; Some 0x0160; Some 0x2039;
      Some 0x0152; None;        Some 0x017D; None;
      None;        Some 0x2018; Some 0x2019; Some 0x201C;
      Some 0x201D; Some 0x2022; Some 0x2013; Some 0x2014;
      Some 0x02DC; Some 0x2122; Some 0x0161; Some 0x203A;
      Some 0x0153; None;        Some 0x017E; Some 0x0178 ] None.

Fixpoint cp1252_decode (s : bytes) : result unicode :=
  match s with
  | [] => Ok []
  | b :: s' =>
      match cp1252_char (byte_val b) with
      | None => Raise UnicodeDecodeError
      | Some c => t ← cp1252_decode s'; Ok (c :: t)
      end
  end.

(** A UTF-8 continuation byte: [(c & 0xc0) == 0x80]. *)
Definition utf8_cont (c : Z) : bool := Z.land c 0xC0 =? 0x80.

(** The strict UTF-8 decoder of CPython 2.7 (one code point per element):
    start bytes 0xC2-0xDF open two bytes, 0xE0-0xEF three, 0xF0-0xF4 four;
    overlong forms and values above U+10FFFF are rejected, surrogates are
    not. *)
Fixpoint utf8_decode (s : bytes) : result unicode :=
  match s with
  | [] => Ok []
  | b0 :: s1 =>
      let c0 := byte_val b0 in
      if c0 <? 0x80 then t ← utf8_decode s1; Ok (c0 :: t)
      else if c0 <? 0xC2 then Raise UnicodeDecodeError
      else if c0 <? 0xE0 then
        match s1 with
        | b1 :: s2 =>
            let c1 := byte_val b1 in
            if utf8_cont c1
            then t ← utf8_decode s2;
                 Ok (Z.shiftl (Z.land c0 0x1F) 6 + Z.land c1 0x3F :: t)
            else Raise UnicodeDecodeError
        | _ => Raise UnicodeDecodeError
        end
      else if c0 <? 0xF0 then
        match s1 with
        | b1 :: b2 :: s3 =>
            let c1 := byte_val b1 in
            let c2 := byte_val b2 in
            if utf8_cont c1 && utf8_cont c2
               && negb ((c0 =? 0xE0) && (c1 <? 0xA0))
            then t ← utf8_decode s3;
                 Ok (Z.shiftl (Z.land c0 0x0F) 12
                     + Z.shiftl (Z.land c1 0x3F) 6 + Z.land c2 0x3F :: t)
            else Raise UnicodeDecodeError
        | _ => Raise UnicodeDecodeError
        end
      else if c0 <? 0xF5 then
        match s1 with
        | b1 :: b2 :: b3 :: s4 =>
            let c1 := byte_val b1 in
            let c2 := byte_val b2 in
            let c3 := byte_val b3 in
            if utf8_cont c1 && utf8_cont c2 && utf8_cont c3
               && negb ((c0 =? 0xF0) && (c1 <? 0x90))
               && negb ((c0 =? 0xF4) && (0x8F <? c1))
            then t ← utf8_decode s4;
                 Ok (Z.shiftl (Z.land c0 0x07) 18
                     + Z.shiftl (Z.land c1 0x3F) 12
                     + Z.shiftl (Z.land c2 0x3F) 6 + Z.land c3 0x3F :: t)
            else Raise UnicodeDecodeError
        | _ => Raise UnicodeDecodeError
        end
      else Raise UnicodeDecodeError
  end.

(** [unicode(s, encoding)] *)
Definition decode (enc : encoding) (s : bytes) : result unicode :=
  match enc with
  | Windows1252 => cp1252_decode s
  | Utf8 => utf8_decode s
  end.

(** [str(v)] for a non-negative integer: its decimal digits. *)
Definition str_of_int (v : Z) : bytes :=
  bytes_of_string (NilZero.string_of_uint (N.to_uint (Z.to_N v))).

(** Whitespace for [str.strip()]: tab, LF, VT, FF, CR and space. *)
Definition is_space_byte (b : byte) : bool :=
  let c := byte_val b in
  ((0x09 <=? c) && (c <=? 0x0D)) || (c =? 0x20).

(** Whitespace for [unicode.strip()] (the Unicode 5.2 database of
    Python 2.7). *)
Definition is_space_unicode (c : Z) : bool :=
  ((0x09 <=? c) && (c <=? 0x0D)) || ((0x1C <=? c) && (c <=? 0x20))
  || (c =? 0x85) || (c =? 0xA0) || (c =? 0x1680) || (c =? 0x180E)
  || ((0x2000 <=? c) && (c <=? 0x200A)) || (c =? 0x2028) || (c =? 0x2029)
  || (c =? 0x202F) || (c =? 0x205F) || (c =? 0x3000).

Fixpoint lstrip {A} (sp : A -> bool) (l : list A) : list A :=
  match l with
  | [] => []
  | x :: l' => if sp x then lstrip sp l' else l
  end.

(** [s.strip()] for the whitespace test [sp]. *)
Definition strip {A} (sp : A -> bool) (l : list A) : list A :=
  rev (lstrip sp (rev (lstrip sp l))).

(** [s.split('\0')[0]]: the bytes before the first NUL. *)
Fixpoint split_nul_first (s : bytes) : bytes :=
  match s with
  | [] => []
  | b :: s' => if byte_val b =? 0 then [] else b :: split_nul_first s'
  end.

(** Truth value of a string: non-empty. *)
Definition nonempty {A} (l : list A) : bool :=
  match l with [] => false | _ => true end.

(** ** Field lookup and title *)

(** [struct.unpack(EXTH_MAP_CONVERSIONS[tag], v)] *)
Definition unpack_conversion (fmt : conversion) (v : bytes) : result Z :=
  match fmt with
  | FmtI => unpack_I v
  | FmtQ => unpack_Q v
  end.

(** [MobiBook.__getattr__], reached for every name that is not an instance
    attribute. *)
Definition __getattr__ (self : MobiBook) (name : string) : result unicode :=
  match EXTH_RMAP_STRINGS !! name with
  | None => Raise AttributeError
  | Some tag =>
      let v := default [] (self.(meta_array) !! tag) in
      v ← match EXTH_MAP_CONVERSIONS tag with
          | Some fmt =>
              if nonempty v
              then n ← unpack_conversion fmt v; Ok (str_of_int n)
              else Ok v
          | None => Ok v
          end;
      let encoding := CODEPAGE_MAP_get self.(mobi_codepage) in
      decode encoding v
  end.

(** The [title] property. *)
Definition title (self : MobiBook) : result unicode :=
  title ← __getattr__ self "updatedtitle";
  let encoding := CODEPAGE_MAP_get self.(mobi_codepage) in
  title ← (if negb (nonempty title)
           then '(toff, tlen) ← unpack_II (py_slice self.(record0) 0x54 0x5c);
                decode encoding (py_slice self.(record0) toff (toff + tlen))
           else Ok title);
  let title := strip is_space_unicode title in
  if negb (nonempty title)
  then let title := strip is_space_byte (py_slice self.(header) 0 32) in
       decode encoding (split_nul_first title)
  else Ok title.

(** ** Test documents *)

Module Fixtures.

Definition zeros (n : nat) : bytes := repeat "000"%byte n.

Definition byte_of_Z (v : Z) : byte :=
  default "000"%byte (Byte.of_N (Z.to_N (v mod 256))).

(** [w] bytes, big-endian. *)
Fixpoint be_bytes (w : nat) (v : Z) : bytes :=
  match w with
  | O => []
  | S w' => be_bytes w' (v / 256) ++ [byte_of_Z v]
  end.

(** Overwrite [base] from offset [off] on with [new]. *)
Definition patch (off : Z) (new base : bytes) : bytes :=
  take (Z.to_nat off) base ++ new
    ++ drop (Z.to_nat off + List.length new) base.

(** One EXTH record: tag, total size, payload. *)
Definition exth_record (tag : Z) (payload : bytes) : bytes :=
  be_bytes 4 tag ++ be_bytes 4 (8 + len payload) ++ payload.

(** An EXTH block declaring [nitems] records. *)
Definition exth_block (nitems : Z) (records : bytes) : bytes :=
  bytes_of_string "EXTH" ++ be_bytes 4 (12 + len records)
    ++ be_bytes 4 nitems ++ records.

(** Section 0: 0xF8 bytes of MOBI header with the given fields, followed
    by [tail].  With [mobi_length] 0xE8 the EXTH block is looked for at
    0xF8, where [tail] starts. *)
Definition mk_record0 (mobi_length codepage version exth_flag : Z)
    (title_off title_len : Z) (tail : bytes) : bytes :=
  patch 0x14 (be_bytes 4 mobi_length)
    (patch 0x1C (be_bytes 4 codepage)
      (patch 0x54 (be_bytes 4 title_off ++ be_bytes 4 title_len)
        (patch 0x68 (be_bytes 4 version)
          (patch 0x80 (be_bytes 4 exth_flag) (zeros 0xF8))))) ++ tail.

(** A one-section archive: 32 bytes of name, the container tag at 0x3C,
    the section count at 76 and one descriptor pointing at byte 86. *)
Definition mk_doc (name : string) (record0 : bytes) : bytes :=
  take 32 (bytes_of_string name ++ zeros 32) ++ zeros 28
    ++ bytes_of_string "BOOKMOBI" ++ zeros 8 ++ be_bytes 2 1
    ++ be_bytes 4 86 ++ zeros 4 ++ record0.

(** A two-section archive: section 0 starts at byte 94, section 1 is
    declared at [off1]. *)
Definition mk_doc2 (name : string) (off1 : Z) (record0 : bytes) : bytes :=
  take 32 (bytes_of_string name ++ zeros 32) ++ zeros 28
    ++ bytes_of_string "BOOKMOBI" ++ zeros 8 ++ be_bytes 2 2
    ++ be_bytes 4 94 ++ zeros 4 ++ be_bytes 4 off1 ++ zeros 4 ++ record0.

End Fixtures.

Import Fixtures.

(** * Vocabulary of the statements *)

(** ** Readings of a document *)

(** The 8 bytes that [__init__] compares with the container tag. *)
Definition doc_magic (data : bytes) : bytes :=
  py_slice (py_slice data 0 78) 0x3C (0x3C + 8).

(** The section count that [parseSections] reads. *)
Definition doc_num_sections (data : bytes) : result Z :=
  unpack_H (py_slice (py_slice data 0 78) 76 78).

(** The guard of line 105 on the header bytes. *)
Definition flags_guard (record0 : bytes) : bool :=
  (0xE4 <=? be_uint (py_slice record0 0x14 0x18))
  && (5 <=? be_uint (py_slice record0 0x68 0x6C)).

(** The fixed header fields fit: 0xB8 bytes for the unconditional reads,
    0xF4 when the guard sends line 106 to offset 0xF2. *)
Definition header_fits (record0 : bytes) : Prop :=
  0xB8 <= len record0
  /\ (flags_guard record0 = true -> 0xF4 <= len record0).

(** [s] is the part of [data] from byte [a] up to byte [b]. *)
Definition bytes_between (data : bytes) (a b : Z) (s : bytes) : Prop :=
  exists pre post, data = pre ++ s ++ post /\ len pre = a /\ len (pre ++ s) = b.

(** The text of an ASCII byte string. *)
Definition ascii_text (s : bytes) : unicode := map byte_val s.

(** ** The record walk *)

(** A callback that records its calls, in order. *)
Definition log_callback (exth_type pos : Z) (content : bytes)
    (log : list (Z * Z * bytes)) : list (Z * Z * bytes) :=
  log ++ [(exth_type, pos, content)].

(** Every one of the [k] header reads of the walk from [pos] finds its 8
    bytes. *)
Fixpoint headers_readable (exth : bytes) (k : nat) (pos : Z) : bool :=
  match k with
  | O => true
  | S k' =>
      match unpack_II (py_slice exth pos (pos + 8)) with
      | Ok (_, size) => headers_readable exth k' (pos + size)
      | Raise _ => false
      end
  end.

(** The block is found: at least 12 bytes that start with the tag. *)
Definition exth_found (exth : bytes) : bool :=
  negb ((len exth <? 12) || negb (bool_decide (py_slice exth 0 4 = EXTH_tag))).

(** The block at [off] is truncated or corrupt: the slice has fewer than
    12 bytes, or does not start with the tag, or one of the header reads
    of the walk for the declared item count lacks bytes. *)
Definition exth_corrupt (r0 : bytes) (off : Z) : Prop :=
  let exth := py_slice_from r0 off in
  len exth < 12
  \/ py_slice exth 0 4 <> EXTH_tag
  \/ headers_readable exth (Z.to_nat (be_uint (py_slice exth 8 12))) 12
     = false.

(** A record as it lies in the block: its 8 header bytes and its payload. *)
Definition exth_rec : Type := bytes * bytes.

Definition rec_tag (r : exth_rec) : Z := be_uint (take 4 r.1).
Definition rec_size (r : exth_rec) : Z := be_uint (drop 4 r.1).
Definition rec_bytes (r : exth_rec) : bytes := r.1 ++ r.2.

(** The header has 8 bytes and its size field counts header and payload. *)
Definition rec_wf (r : exth_rec) : bool :=
  (len r.1 =? 8) && (rec_size r =? 8 + len r.2).

(** The calls that the walk over [recs] makes, the first record lying at
    [pos]. *)
Fixpoint exth_items (pos : Z) (recs : list exth_rec) : list (Z * Z * bytes) :=
  match recs with
  | [] => []
  | r :: recs' => (rec_tag r, pos, r.2) :: exth_items (pos + rec_size r) recs'
  end.

Definition sum_sizes (recs : list exth_rec) : Z :=
  fold_right (fun r acc => rec_size r + acc) 0 recs.

Definition run_calls {S} (cb : Z -> Z -> bytes -> S -> S)
    (items : list (Z * Z * bytes)) (s : S) : S :=
  fold_left (fun s it => cb it.1.1 it.1.2 it.2 s) items s.

(** ** Claims in the wording that the code does not meet *)

(** C6 as the claim states it: a buffer shorter than its declared section
    table makes construction fail with the invalid-format error. *)
Definition C6_as_stated (data : bytes) : Prop :=
  forall n, doc_num_sections data = Ok n -> len data < 78 + n * 8 ->
  __init__ data = Raise MobiException.

(** C4 as the claim states it: for every parsed archive and every index,
    the loaded section is the part of the document from the section's
    offset up to the next section's offset, or up to the document length
    for the last section. *)
Definition C4_as_stated (data : bytes) : Prop :=
  forall n secs i,
    parseSections data (py_slice data 0 78) = Ok (n, secs) ->
    0 <= i < n ->
    exists off endoff s,
      sec_offset <$> secs !! Z.to_nat i = Some off
      /\ (i = n - 1 /\ endoff = len data
          \/ i < n - 1
             /\ sec_offset <$> secs !! Z.to_nat (i + 1) = Some endoff)
      /\ loadSection data n secs i = Ok s
      /\ bytes_between data off endoff s.

(** C3 as the claim states it, for the 4-byte conversions: a non-empty raw
    value under tag 116 or 201 is returned as a decimal rendering. *)
Definition C3_as_stated (data : bytes) : Prop :=
  forall b name tag v,
    __init__ data = Ok b ->
    EXTH_RMAP_STRINGS !! name = Some tag ->
    tag = 116 \/ tag = 201 ->
    meta_array b !! tag = Some v -> v <> [] ->
    __getattr__ b name = Ok (ascii_text (str_of_int (be_uint v))).



(** ** Documents used in the examples *)

(** A header that declares one section and ends right after the count. *)
Definition truncated_table_doc : bytes := take 78 (mk_doc "short" []).

(** A document with [mobi_length = 0xE0], version 6, and 0xFFFF at offset
    0xF2 of section 0. *)
Definition short_header_doc : bytes :=
  mk_doc "flags" (patch 0xF2 (be_bytes 2 0xFFFF) (mk_record0 0xE0 1252 6 0 0 0 [])).

(** Two sections, the second declared at byte 100000 of a 342-byte
    document. *)
Definition far_section_doc : bytes :=
  mk_doc2 "far" 100000 (mk_record0 0xE8 1252 6 0 0 0 []).


(** Section 0 with a block of two records, tags 100 and 503, and three
    trailing bytes. *)
Definition two_record0 : bytes :=
  mk_record0 0xE8 1252 6 0x40 0 0
    (exth_block 2 (exth_record 100 (bytes_of_string "Ann")
                   ++ exth_record 503 (bytes_of_string "Book"))
     ++ zeros 3).


(** A document whose StartOffset record (tag 116) has a 2-byte payload. *)
Definition short_offset_doc : bytes :=
  mk_doc "offs"
    (mk_record0 0xE8 1252 6 0x40 0 0
       (exth_block 1 (exth_record 116 (be_bytes 2 7)))).

(** A document with a 4-byte StartOffset record of value 1234. *)
Definition offset_doc : bytes :=
  mk_doc "offs"
    (mk_record0 0xE8 65001 6 0x40 0 0
       (exth_block 1 (exth_record 116 (be_bytes 4 1234)))).




(** ** Readings of the section table *)

(** The descriptor that the 8 bytes at [78 + j*8] spell: a 4-byte offset,
    one byte of flags and a 3-byte identifier, all big-endian. *)
Definition section_at (data : bytes) (j : Z) : section_desc :=
  let p := 78 + j * 8 in
  (be_uint (py_slice data p (p + 4)),
   be_uint (py_slice data (p + 4) (p + 5)),
   be_uint (py_slice data (p + 5) (p + 8))).

Definition sec_flags (s : section_desc) : Z := s.1.2.
Definition sec_uniqueID (s : section_desc) : Z := s.2.

(** The consecutive parts that the offsets [offs] cut out of [data], the
    last one reaching the end of the document. *)
Fixpoint cuts (data : bytes) (offs : list Z) : list bytes :=
  match offs with
  | [] => []
  | a :: rest => py_slice data a (hd (len data) rest) :: cuts data rest
  end.

(** Section 0 as the table bytes of [data] place it: from the first
    descriptor's offset to the second descriptor's offset, or to the end of
    the document when there is one section. *)
Definition section0_of (data : bytes) (n : Z) : bytes :=
  py_slice data (sec_offset (section_at data 0))
    (if n =? 1 then len data else sec_offset (section_at data 1)).

(** Construction returns an object exactly under these conditions on the
    bytes. *)
Definition constructible (data : bytes) : Prop :=
  doc_magic data = BOOKMOBI
  /\ exists n, doc_num_sections data = Ok n
       /\ 1 <= n /\ 78 + n * 8 <= len data
       /\ header_fits (section0_of data n).

(** ** Further documents *)

(** A well-formed block with a Creator record, in a document whose flag
    word has bit 0x40 clear. *)
Definition unflagged_exth_doc : bytes :=
  mk_doc "plain"
    (mk_record0 0xE8 1252 6 0 0 0
       (exth_block 1 (exth_record 100 (bytes_of_string "Ann")))).

(** Two Creator records, "Ann" and then "Bob". *)
Definition twice_creator_doc : bytes :=
  mk_doc "twice"
    (mk_record0 0xE8 1252 6 0x40 0 0
       (exth_block 2 (exth_record 100 (bytes_of_string "Ann")
                      ++ exth_record 100 (bytes_of_string "Bob")))).

(** A block that declares one record of 100 bytes and holds, after the
    record header, only the 3 bytes "abc". *)
Definition overrun_exth : bytes :=
  bytes_of_string "EXTH" ++ be_bytes 4 112 ++ be_bytes 4 1
    ++ be_bytes 4 100 ++ be_bytes 4 100 ++ bytes_of_string "abc".

(** A UTF-8 document whose UpdatedTitle record is the lone byte 0xFF. *)
Definition bad_utf8_title_doc : bytes :=
  mk_doc "bad"
    (mk_record0 0xE8 65001 6 0x40 0 0
       (exth_block 1 (exth_record 503 (be_bytes 1 0xFF)))).

(** ** Tactics *)

Ltac case_bind H :=
  match type of H with
  | mbind _ ?m = _ =>
      let E := fresh "E" in destruct m eqn:E; simpl in H; try discriminate H
  end.

(** One step of a chain of reads: either the read raised, and the chain
    raises the same, or it returned. *)
Ltac step_bind H :=
  match type of H with
  | mbind _ ?m = _ =>
      let E := fresh "E" in
      destruct m eqn:E; cbn [mbind result_bind] in H
  end.

(** * Properties *)

(** ** Slices and struct.unpack *)

Lemma len_nonneg {A} (l : list A) : 0 <= len l.
Proof. unfold len. lia. Qed.

Lemma len_app {A} (l1 l2 : list A) : len (l1 ++ l2) = len l1 + len l2.
Proof. unfold len. rewrite length_app. lia. Qed.

(** With bounds that are not negative, Python's slice is [take] after
    [drop]: both clamp at the end of the list. *)
Lemma py_slice_take_drop {A} (l : list A) (a b : Z) :
  0 <= a -> 0 <= b ->
  py_slice l a b = take (Z.to_nat (b - a)) (drop (Z.to_nat a) l).
Proof.
  intros Ha Hb. unfold py_slice, slice_bound.
  pose proof (len_nonneg l) as Hl.
  destruct (Z.ltb_spec a 0) as [|_]; [lia|].
  destruct (Z.ltb_spec b 0) as [|_]; [lia|].
  unfold len in *.
  destruct (Z.le_gt_cases a (Z.of_nat (List.length l))) as [Hal|Hal].
  - rewrite (Z.max_r 0 (Z.min a _)) by lia. rewrite (Z.min_l a) by lia.
    destruct (Z.le_gt_cases b (Z.of_nat (List.length l))) as [Hbl|Hbl].
    + rewrite Z.max_r by lia. rewrite Z.min_l by lia. reflexivity.
    + rewrite Z.max_r by lia. rewrite Z.min_r by lia.
      rewrite !take_ge; [reflexivity | rewrite length_drop; lia
                        | rewrite length_drop; lia].
  - rewrite !drop_ge by lia. rewrite !take_nil. reflexivity.
Qed.

(** The length of a slice with non-negative bounds. *)
Lemma len_py_slice {A} (l : list A) (a b : Z) :
  0 <= a -> 0 <= b ->
  len (py_slice l a b) = Z.max 0 (Z.min b (len l) - Z.min a (len l)).
Proof.
  intros Ha Hb. rewrite py_slice_take_drop by assumption.
  unfold len. rewrite length_take, length_drop. lia.
Qed.

Lemma len_py_slice_exact {A} (l : list A) (a b : Z) :
  0 <= a <= b -> b <= len l -> len (py_slice l a b) = b - a.
Proof. intros ? ?. rewrite len_py_slice by lia. lia. Qed.

Lemma len_py_slice_short {A} (l : list A) (a b : Z) :
  0 <= a < b -> len l < b -> len (py_slice l a b) < b - a.
Proof. intros ? ?. rewrite len_py_slice by lia. lia. Qed.

(** A slice of a slice that starts at 0. *)
Lemma py_slice_prefix {A} (l : list A) (n a b : Z) :
  0 <= a -> 0 <= b <= n ->
  py_slice (py_slice l 0 n) a b = py_slice l a b.
Proof.
  intros Ha Hb. rewrite !py_slice_take_drop by lia.
  rewrite Z.sub_0_r. simpl drop.
  rewrite skipn_firstn_comm, take_take. f_equal. lia.
Qed.

Lemma unpack_H_ok s : len s = 2 -> unpack_H s = Ok (be_uint s).
Proof. intros H. unfold unpack_H. rewrite H. reflexivity. Qed.

Lemma unpack_L_ok s : len s = 4 -> unpack_L s = Ok (be_uint s).
Proof. intros H. unfold unpack_L. rewrite H. reflexivity. Qed.

Lemma unpack_H_inv s v : unpack_H s = Ok v -> len s = 2 /\ v = be_uint s.
Proof.
  unfold unpack_H. destruct (Z.eqb_spec (len s) 2); [|discriminate].
  intros [= <-]. auto.
Qed.

Lemma unpack_L_inv s v : unpack_L s = Ok v -> len s = 4 /\ v = be_uint s.
Proof.
  unfold unpack_L. destruct (Z.eqb_spec (len s) 4); [|discriminate].
  intros [= <-]. auto.
Qed.

Lemma unpack_II_inv s a b :
  unpack_II s = Ok (a, b) ->
  len s = 8 /\ a = be_uint (take 4 s) /\ b = be_uint (drop 4 s).
Proof.
  unfold unpack_II. destruct (Z.eqb_spec (len s) 8); [|discriminate].
  intros [= <- <-]. auto.
Qed.

Lemma unpack_LBBBB_short s : len s <> 8 -> unpack_LBBBB s = Raise StructError.
Proof.
  intros H. unfold unpack_LBBBB. destruct (Z.eqb_spec (len s) 8); [lia|done].
Qed.

(** Every error of a struct read is struct.error. *)
Lemma unpack_LBBBB_raise s e : unpack_LBBBB s = Raise e -> e = StructError.
Proof.
  unfold unpack_LBBBB. destruct (len s =? 8); [discriminate|].
  intros [= <-]. reflexivity.
Qed.

Lemma byte_val_range b : 0 <= byte_val b < 256.
Proof.
  unfold byte_val. pose proof (Byte.to_N_bounded b). lia.
Qed.

Lemma be_fold_acc s acc :
  fold_left (fun a b => a * 256 + byte_val b) s acc
  = acc * 256 ^ len s + be_uint s.
Proof.
  unfold be_uint. revert acc. induction s as [|b s IH]; intros acc.
  - simpl. change (len []) with 0. lia.
  - simpl. rewrite IH, (IH (0 * 256 + byte_val b)).
    replace (len (b :: s)) with (1 + len s) by (unfold len; simpl; lia).
    rewrite Z.pow_add_r by (pose proof (len_nonneg s); lia). lia.
Qed.

Lemma be_uint_app s1 s2 :
  be_uint (s1 ++ s2) = be_uint s1 * 256 ^ len s2 + be_uint s2.
Proof.
  unfold be_uint at 1. rewrite fold_left_app, be_fold_acc. reflexivity.
Qed.

Lemma be_uint_nonneg s : 0 <= be_uint s.
Proof.
  induction s as [|b s IH] using rev_ind; [done|].
  rewrite be_uint_app. change (len [b]) with 1.
  unfold be_uint at 2. simpl. pose proof (byte_val_range b). lia.
Qed.

(** ** The container tag and the section table *)

Lemma MobiBook_init_magic data b :
  __init__ data = Ok b -> doc_magic data = BOOKMOBI.
Proof.
  unfold __init__, doc_magic.
  case_bool_decide; [done | discriminate].
Qed.

Lemma parseSections_loop_length data k : forall i acc secs,
  parseSections_loop data i k acc = Ok secs ->
  List.length secs = (List.length acc + k)%nat.
Proof.
  induction k as [|k IH]; intros i acc secs H; simpl in H.
  - injection H as <-. lia.
  - case_bind H. destruct a as [[[[offset a1] a2] a3] a4].
    apply IH in H. rewrite length_app in H. simpl in H. lia.
Qed.

(** The loop fails when one of its descriptors lies beyond the buffer. *)
Lemma parseSections_loop_short data k : forall i acc,
  0 <= i -> (0 < k)%nat -> len data < 78 + (i + Z.of_nat k) * 8 ->
  parseSections_loop data i k acc = Raise StructError.
Proof.
  induction k as [|k IH]; intros i acc Hi Hk Hlen; [lia|].
  simpl. destruct (Z.le_gt_cases (78 + i * 8 + 8) (len data)) as [Hfit|Hcut].
  - destruct (unpack_LBBBB _) as [[[[[offset a1] a2] a3] a4]|e] eqn:E; simpl.
    + apply IH; lia.
    + f_equal. eauto using unpack_LBBBB_raise.
  - rewrite unpack_LBBBB_short; [done|].
    pose proof (len_py_slice_short data (78 + i * 8) (78 + i * 8 + 8)). lia.
Qed.

Lemma parseSections_inv data hdr n secs :
  parseSections data hdr = Ok (n, secs) ->
  unpack_H (py_slice hdr 76 78) = Ok n /\ len secs = n /\ 0 <= n.
Proof.
  unfold parseSections. intros H. case_bind H. case_bind H.
  injection H as <- <-. split; [done|].
  apply parseSections_loop_length in E0. apply unpack_H_inv in E as [_ ->].
  pose proof (be_uint_nonneg (py_slice hdr 76 78)).
  unfold len. simpl in E0. lia.
Qed.

(** ** C7 *)

(** C7. A buffer whose 8 bytes at offset 0x3C are not the container tag is
    rejected with MobiException (the invalid-format error) whatever the
    rest of the buffer holds: the check precedes every other read, and no
    object is returned. *)
Theorem C7_bad_magic_rejected (data : bytes) :
  doc_magic data <> BOOKMOBI -> __init__ data = Raise MobiException.
Proof.
  intros H. unfold __init__. fold (doc_magic data).
  rewrite bool_decide_eq_false_2 by assumption. reflexivity.
Qed.

Lemma C7_witness :
  doc_magic (bytes_of_string "not a book") <> BOOKMOBI
  /\ __init__ (bytes_of_string "not a book") = Raise MobiException.
Proof.
  assert (H : doc_magic (bytes_of_string "not a book") <> BOOKMOBI)
    by (vm_compute; discriminate).
  split; [exact H | exact (C7_bad_magic_rejected _ H)].
Defined.

(** ** C9 *)

(** C9. A buffer that passes the tag check and declares zero sections is
    never constructed: loading section 0 indexes section 1 of the empty
    table and raises IndexError, which is not MobiException. *)
Theorem C9_zero_sections_index_error (data : bytes) :
  doc_magic data = BOOKMOBI -> doc_num_sections data = Ok 0 ->
  __init__ data = Raise IndexError
  /\ __init__ data <> Raise MobiException
  /\ loadSection data 0 [] 0 = Raise IndexError.
Proof.
  intros Hm Hn.
  assert (Hl : loadSection data 0 [] 0 = Raise IndexError) by reflexivity.
  assert (Hi : __init__ data = Raise IndexError).
  { unfold __init__. fold (doc_magic data).
    rewrite bool_decide_eq_true_2 by assumption. simpl negb. cbv iota.
    unfold parseSections. fold (doc_num_sections data). rewrite Hn.
    reflexivity. }
  rewrite Hi. split; [reflexivity | split; [discriminate | exact Hl]].
Qed.

Lemma C9_witness :
  let data := take 76 (mk_doc "empty" []) ++ be_bytes 2 0 in
  doc_magic data = BOOKMOBI /\ doc_num_sections data = Ok 0
  /\ __init__ data = Raise IndexError.
Proof.
  intros data.
  assert (Hm : doc_magic data = BOOKMOBI) by (vm_compute; reflexivity).
  assert (Hn : doc_num_sections data = Ok 0) by (vm_compute; reflexivity).
  split; [exact Hm | split; [exact Hn |]].
  exact (proj1 (C9_zero_sections_index_error data Hm Hn)).
Defined.

(** ** C6 *)

(** The header that ends after its count passes the tag check and is
    refused with struct.error, not with MobiException. *)
Lemma C6_counterexample :
  ~ C6_as_stated truncated_table_doc
  /\ __init__ truncated_table_doc = Raise StructError.
Proof.
  assert (H : __init__ truncated_table_doc = Raise StructError)
    by (vm_compute; reflexivity).
  split; [|exact H].
  intros Hc. specialize (Hc 1).
  rewrite H in Hc. discriminate Hc; vm_compute; reflexivity.
Qed.

(** C6, amended. When the buffer passes the tag check and is shorter than
    [78 + count*8], reading the section table raises struct.error, and so
    does construction: no object is returned, and the error is not
    MobiException. *)
Theorem C6_truncated_section_table (data : bytes) (n : Z) :
  doc_magic data = BOOKMOBI ->
  doc_num_sections data = Ok n -> len data < 78 + n * 8 ->
  parseSections data (py_slice data 0 78) = Raise StructError
  /\ __init__ data = Raise StructError.
Proof.
  intros Hm Hn Hlen.
  assert (Hp : parseSections data (py_slice data 0 78) = Raise StructError).
  { unfold parseSections. fold (doc_num_sections data). rewrite Hn. simpl.
    apply unpack_H_inv in Hn as [Hn2 ->].
    assert (78 <= len data).
    { rewrite py_slice_prefix in Hn2 by lia.
      destruct (Z.le_gt_cases 78 (len data)); [done|].
      pose proof (len_py_slice_short data 76 78). lia. }
    rewrite parseSections_loop_short; [done | lia | lia | lia]. }
  split; [exact Hp|].
  unfold __init__. fold (doc_magic data).
  rewrite bool_decide_eq_true_2 by assumption. simpl negb. cbv iota.
  rewrite Hp. reflexivity.
Qed.

Lemma C6_witness :
  doc_magic truncated_table_doc = BOOKMOBI
  /\ doc_num_sections truncated_table_doc = Ok 1
  /\ len truncated_table_doc < 78 + 1 * 8
  /\ __init__ truncated_table_doc = Raise StructError.
Proof.
  assert (Hm : doc_magic truncated_table_doc = BOOKMOBI)
    by (vm_compute; reflexivity).
  assert (Hn : doc_num_sections truncated_table_doc = Ok 1)
    by (vm_compute; reflexivity).
  assert (Hl : len truncated_table_doc < 78 + 1 * 8)
    by (vm_compute; reflexivity).
  split; [exact Hm | split; [exact Hn | split; [exact Hl |]]].
  exact (proj2 (C6_truncated_section_table _ 1 Hm Hn Hl)).
Defined.

(** ** Construction: what a returned object satisfies, and when one is
    returned *)

Lemma unpack_field_H r0 (a b : Z) :
  0 <= a -> b = a + 2 -> b <= len r0 ->
  unpack_H (py_slice r0 a b) = Ok (be_uint (py_slice r0 a b)).
Proof. intros. apply unpack_H_ok. rewrite len_py_slice_exact; lia. Qed.

Lemma unpack_field_L r0 (a b : Z) :
  0 <= a -> b = a + 4 -> b <= len r0 ->
  unpack_L (py_slice r0 a b) = Ok (be_uint (py_slice r0 a b)).
Proof. intros. apply unpack_L_ok. rewrite len_py_slice_exact; lia. Qed.

Lemma unpack_field_inv_L r0 (a : Z) v :
  0 <= a -> unpack_L (py_slice r0 a (a + 4)) = Ok v ->
  a + 4 <= len r0 /\ v = be_uint (py_slice r0 a (a + 4)).
Proof.
  intros Ha H. apply unpack_L_inv in H as [Hl ->]. split; [|done].
  destruct (Z.le_gt_cases (a + 4) (len r0)); [done|].
  pose proof (len_py_slice_short r0 a (a + 4)). lia.
Qed.

(** What [parseMobiHeader] leaves in the object it returns. *)
Lemma parseMobiHeader_inv self b :
  parseMobiHeader self = Ok b ->
  let r0 := record0 self in
  record0 b = r0 /\ header b = header self
  /\ 0xB8 <= len r0
  /\ mobi_length b = be_uint (py_slice r0 0x14 0x18)
  /\ mobi_codepage b = be_uint (py_slice r0 0x1c 0x20)
  /\ mobi_version b = be_uint (py_slice r0 0x68 0x6C)
  /\ exth_off b = mobi_length b + 16
  /\ read_extra_data_flags r0 (mobi_length b) (mobi_version b)
       (extra_data_flags self) = Ok (extra_data_flags b)
  /\ meta_array b
     = parse_exth_if_flagged r0 (mobi_length b + 16)
         (be_uint (py_slice r0 0x80 0x84)) (meta_array self).
Proof.
  unfold parseMobiHeader. intros H. set (r0 := record0 self) in *.
  case_bind H. rename a into ml, E into Eml.
  case_bind H. rename a into cp, E into Ecp.
  case_bind H. rename a into mv, E into Emv.
  case_bind H. rename a into fi, E into Efi.
  case_bind H. rename a into ef, E into Eef.
  case_bind H. rename a into ct, E into Ect.
  case_bind H. destruct a as [[[dp dc] ds] dr]. rename E into Edrm.
  case_bind H. rename a into fl, E into Efl.
  injection H as <-. simpl.
  apply (unpack_field_inv_L r0 0x14) in Eml as [_ ->]; [|lia].
  apply (unpack_field_inv_L r0 0x1c) in Ecp as [_ ->]; [|lia].
  apply (unpack_field_inv_L r0 0x68) in Emv as [_ ->]; [|lia].
  apply (unpack_field_inv_L r0 0x80) in Efl as [_ ->]; [|lia].
  assert (0xB8 <= len r0).
  { unfold unpack_LLLL in Edrm.
    destruct (Z.eqb_spec (len (py_slice r0 168 (168 + 16))) 16) as [Hl|];
      [|discriminate].
    destruct (Z.le_gt_cases 0xB8 (len r0)); [done|].
    pose proof (len_py_slice_short r0 168 (168 + 16)). lia. }
  repeat split; try done.
Qed.

(** [parseMobiHeader] returns when the header fits. *)
Lemma parseMobiHeader_ok self :
  header_fits (record0 self) ->
  exists b, parseMobiHeader self = Ok b.
Proof.
  intros [Hlen Hguard]. unfold parseMobiHeader.
  set (r0 := record0 self) in *.
  rewrite (unpack_field_L r0 0x14 0x18), (unpack_field_L r0 0x1c 0x20),
    (unpack_field_L r0 0x68 0x6C), (unpack_field_L r0 0x80 0x84) by lia.
  rewrite (unpack_field_H r0 0xC (0xC + 2)) by lia.
  cbn [mbind result_bind].
  unfold unpack_from_L.
  destruct (Z.ltb_spec (len r0 - 108) 4) as [|_]; [lia|].
  cbn [mbind result_bind].
  unfold read_extra_data_flags. fold (flags_guard r0).
  unfold unpack_LLLL.
  rewrite (len_py_slice_exact r0 168 (168 + 16)) by lia.
  destruct (flags_guard r0) eqn:Eg.
  - rewrite (unpack_field_H r0 0xF2 0xF4) by (specialize (Hguard eq_refl); lia).
    cbn [mbind result_bind Z.eqb Pos.eqb]. eauto.
  - cbn [mbind result_bind Z.eqb Pos.eqb]. eauto.
Qed.

(** What [__init__] leaves in the object it returns. *)
Lemma MobiBook_init_inv data b :
  __init__ data = Ok b ->
  exists n secs,
    parseSections data (py_slice data 0 78) = Ok (n, secs)
    /\ loadSection data n secs 0 = Ok (record0 b)
    /\ header b = py_slice data 0 78
    /\ 0xB8 <= len (record0 b)
    /\ mobi_length b = be_uint (py_slice (record0 b) 0x14 0x18)
    /\ mobi_codepage b = be_uint (py_slice (record0 b) 0x1c 0x20)
    /\ mobi_version b = be_uint (py_slice (record0 b) 0x68 0x6C)
    /\ exth_off b = mobi_length b + 16
    /\ read_extra_data_flags (record0 b) (mobi_length b) (mobi_version b) 0
       = Ok (extra_data_flags b)
    /\ meta_array b
       = parse_exth_if_flagged (record0 b) (mobi_length b + 16)
           (be_uint (py_slice (record0 b) 0x80 0x84)) ∅.
Proof.
  unfold __init__. case_bool_decide; [|discriminate]. simpl negb.
  cbv iota. intros Hi.
  case_bind Hi. destruct a as [n secs]. rename E into Esec.
  case_bind Hi. rename a into r0, E into Er0.
  case_bind Hi. case_bind Hi.
  apply parseMobiHeader_inv in Hi. simpl in Hi.
  destruct Hi as (Hr & Hh & Hl & Hml & Hcp & Hmv & Hoff & Hef & Hmeta).
  exists n, secs. rewrite Hr. repeat split; try done.
Qed.

(** [__init__] returns an object when the tag matches, the section table
    and section 0 load, and the header fits. *)
Lemma MobiBook_init_ok data n secs r0 :
  doc_magic data = BOOKMOBI ->
  parseSections data (py_slice data 0 78) = Ok (n, secs) ->
  loadSection data n secs 0 = Ok r0 ->
  header_fits r0 ->
  exists b, __init__ data = Ok b /\ record0 b = r0.
Proof.
  intros Hm Hsec Hr0 Hfit. unfold __init__. fold (doc_magic data).
  rewrite bool_decide_eq_true_2 by assumption. simpl negb. cbv iota.
  rewrite Hsec. simpl. rewrite Hr0. simpl.
  destruct Hfit as [Hlen Hguard].
  rewrite (unpack_field_H r0 0 (0 + 2)), (unpack_field_H r0 8 (8 + 2)) by lia.
  cbn [mbind result_bind].
  match goal with |- exists b, parseMobiHeader ?s = _ /\ _ =>
    destruct (parseMobiHeader_ok s) as [b Hb]; [split; assumption|];
    exists b; split; [exact Hb|];
    apply parseMobiHeader_inv in Hb; simpl in Hb; tauto
  end.
Qed.

(** ** C8 *)

(** C8. In every constructed object, [extra_data_flags] is the 2-byte
    field at 0xF2 of section 0 exactly when [mobi_length >= 0xE4] and
    [mobi_version >= 5]; otherwise it is 0 whatever section 0 holds at
    0xF2.  The branch not taken is no error: the read of lines 105-106
    then returns the default for every section 0, also one that is shorter
    than 0xF4 bytes. *)
Theorem C8_extra_data_flags_conditional (data : bytes) (b : MobiBook) :
  __init__ data = Ok b ->
  (0xE4 <= mobi_length b /\ 5 <= mobi_version b ->
     0xF4 <= len (record0 b)
     /\ extra_data_flags b = be_uint (py_slice (record0 b) 0xF2 0xF4))
  /\ (mobi_length b < 0xE4 \/ mobi_version b < 5 -> extra_data_flags b = 0)
  /\ (forall r0 ml mv cur, ml < 0xE4 \/ mv < 5 ->
        read_extra_data_flags r0 ml mv cur = Ok cur).
Proof.
  intros Hb. apply MobiBook_init_inv in Hb as (n & secs & H).
  destruct H as (_ & _ & _ & _ & _ & _ & _ & _ & Hef & _).
  assert (Hskip : forall r0 ml mv cur, ml < 0xE4 \/ mv < 5 ->
            read_extra_data_flags r0 ml mv cur = Ok cur).
  { intros r0 ml mv cur Hc. unfold read_extra_data_flags.
    destruct (Z.leb_spec 0xE4 ml), (Z.leb_spec 5 mv); simpl; try done; lia. }
  split; [|split; [|exact Hskip]].
  - intros [Hl Hv]. unfold read_extra_data_flags in Hef.
    destruct (Z.leb_spec 0xE4 (mobi_length b)); [|lia].
    destruct (Z.leb_spec 5 (mobi_version b)); [|lia]. simpl in Hef.
    apply unpack_H_inv in Hef as [Hlen ->]. split; [|done].
    destruct (Z.le_gt_cases 0xF4 (len (record0 b))); [done|].
    pose proof (len_py_slice_short (record0 b) 0xF2 0xF4). lia.
  - intros Hc. rewrite Hskip in Hef by assumption. congruence.
Qed.

Lemma C8_witness :
  exists b, __init__ short_header_doc = Ok b
    /\ mobi_length b = 0xE0
    /\ be_uint (py_slice (record0 b) 0xF2 0xF4) = 0xFFFF
    /\ extra_data_flags b = 0.
Proof.
  assert (E : exists b, __init__ short_header_doc = Ok b
                /\ mobi_length b = 0xE0
                /\ be_uint (py_slice (record0 b) 0xF2 0xF4) = 0xFFFF).
  { vm_compute. eexists. split; [reflexivity|]. split; reflexivity. }
  destruct E as (b & Hb & Hml & Hbytes).
  exists b. split; [exact Hb | split; [exact Hml | split; [exact Hbytes|]]].
  apply (proj1 (proj2 (C8_extra_data_flags_conditional _ _ Hb))).
  left. rewrite Hml. reflexivity.
Defined.

(** ** C4 *)

Lemma py_slice_between {A} (data : list A) (a b : Z) :
  0 <= a <= b -> b <= len data ->
  exists pre post, data = pre ++ py_slice data a b ++ post
    /\ len pre = a /\ len (pre ++ py_slice data a b) = b.
Proof.
  intros Hab Hb. rewrite py_slice_take_drop by lia.
  exists (take (Z.to_nat a) data), (drop (Z.to_nat b) data).
  assert (Hpre : len (take (Z.to_nat a) data) = a).
  { unfold len in *. rewrite length_take. lia. }
  split; [|split; [exact Hpre|]].
  - rewrite <- (take_drop (Z.to_nat a) data) at 1. f_equal.
    rewrite <- (take_drop (Z.to_nat (b - a)) (drop (Z.to_nat a) data)) at 1.
    f_equal. rewrite drop_drop. f_equal. lia.
  - rewrite len_app, Hpre. unfold len in *.
    rewrite length_take, length_drop. lia.
Qed.

Lemma parseSections_loop_offsets data k : forall i acc secs,
  parseSections_loop data i k acc = Ok secs ->
  Forall (fun s => 0 <= sec_offset s) acc ->
  Forall (fun s => 0 <= sec_offset s) secs.
Proof.
  induction k as [|k IH]; intros i acc secs H Hacc; simpl in H.
  - injection H as <-. exact Hacc.
  - case_bind H. destruct a as [[[[offset a1] a2] a3] a4].
    apply IH in H; [exact H|]. apply Forall_app. split; [exact Hacc|].
    apply Forall_singleton. unfold sec_offset. simpl.
    unfold unpack_LBBBB in E. destruct (len _ =? 8); [|discriminate].
    injection E as <- _ _ _ _. apply be_uint_nonneg.
Qed.

Lemma py_index_ok {A} (l : list A) (i : Z) :
  0 <= i < len l -> exists x, l !! Z.to_nat i = Some x /\ py_index l i = Ok x.
Proof.
  intros Hi. unfold py_index.
  destruct (Z.ltb_spec i 0) as [|_]; [lia|].
  destruct (Z.ltb_spec i 0) as [|_]; [lia|].
  destruct (lookup_lt_is_Some_2 l (Z.to_nat i)) as [x Hx].
  { unfold len in Hi. lia. }
  exists x. rewrite Hx. done.
Qed.

(** The document is constructed, and its section 0 is loaded up to the end
    of the document, not up to the offset declared for section 1. *)
Lemma C4_counterexample :
  (exists b, __init__ far_section_doc = Ok b)
  /\ len far_section_doc = 342
  /\ ~ C4_as_stated far_section_doc.
Proof.
  split; [vm_compute; eexists; reflexivity|].
  split; [vm_compute; reflexivity|].
  intros Hc.
  destruct (Hc 2 [(94, 0, 0); (100000, 0, 0)] 0) as (off & endoff & s & H);
    [vm_compute; reflexivity | lia |].
  destruct H as (_ & Hend & _ & pre & post & Hdata & _ & Hlen).
  destruct Hend as [[? _]|[_ Hend]]; [lia|].
  injection Hend as <-.
  assert (Hl : len far_section_doc = 342) by (vm_compute; reflexivity).
  rewrite Hdata, app_assoc, len_app in Hl.
  pose proof (len_nonneg post). unfold sec_offset in Hlen. simpl in Hlen. lia.
Qed.

(** C4, amended.  For every parsed archive with [n] sections and every
    index [0 <= i < n], loading section [i] returns the Python slice
    [data[off:endoff]], where [off] is the section's offset and [endoff]
    is the next section's offset, or the document length for the last
    section.  When [off <= endoff <= len data] this slice is the part of
    the document from byte [off] up to byte [endoff]. *)
Theorem C4_loadSection_slice (data : bytes) (n : Z)
    (secs : list section_desc) (i : Z) :
  parseSections data (py_slice data 0 78) = Ok (n, secs) ->
  0 <= i < n ->
  exists off endoff,
    sec_offset <$> secs !! Z.to_nat i = Some off
    /\ (i = n - 1 /\ endoff = len data
        \/ i < n - 1
           /\ sec_offset <$> secs !! Z.to_nat (i + 1) = Some endoff)
    /\ loadSection data n secs i = Ok (py_slice data off endoff)
    /\ (off <= endoff <= len data ->
        bytes_between data off endoff (py_slice data off endoff)
        /\ len (py_slice data off endoff) = endoff - off).
Proof.
  intros Hp Hi.
  assert (Hnn : Forall (fun s => 0 <= sec_offset s) secs).
  { unfold parseSections in Hp. case_bind Hp. case_bind Hp.
    injection Hp as _ <-.
    eapply parseSections_loop_offsets; [exact E0 | constructor]. }
  apply parseSections_inv in Hp as (_ & Hlen & _).
  destruct (py_index_ok secs i) as (si & Hsi & Hidx); [lia|].
  assert (Hoff : 0 <= sec_offset si).
  { rewrite Forall_lookup in Hnn. eauto. }
  exists (sec_offset si).
  assert (Hexact : forall endoff, sec_offset si <= endoff <= len data ->
    bytes_between data (sec_offset si) endoff
      (py_slice data (sec_offset si) endoff)
    /\ len (py_slice data (sec_offset si) endoff) = endoff - sec_offset si).
  { intros endoff Hv. split.
    - apply py_slice_between; lia.
    - apply len_py_slice_exact; lia. }
  unfold loadSection.
  destruct (Z.eqb_spec (i + 1) n) as [Hlast|Hnot].
  - exists (len data). rewrite Hsi. cbn [mbind result_bind]. rewrite Hidx.
    cbn [mbind result_bind].
    split; [done|]. split; [left; lia|]. split; [done|]. apply Hexact.
  - destruct (py_index_ok secs (i + 1)) as (sn & Hsn & Hidxn); [lia|].
    exists (sec_offset sn). rewrite Hsi, Hsn, Hidxn.
    cbn [mbind result_bind]. rewrite Hidx. cbn [mbind result_bind].
    split; [done|]. split; [right; split; [lia|done]|]. split; [done|].
    apply Hexact.
Qed.

Lemma C4_witness :
  let data := mk_doc2 "two" 200 (zeros 300) in
  exists off endoff,
    off = 94 /\ endoff = 200
    /\ loadSection data 2 [(94, 0, 0); (200, 0, 0)] 0
       = Ok (py_slice data off endoff)
    /\ len (py_slice data off endoff) = endoff - off.
Proof.
  intros data.
  assert (Hp : parseSections data (py_slice data 0 78)
               = Ok (2, [(94, 0, 0); (200, 0, 0)]))
    by (vm_compute; reflexivity).
  assert (Hi : 0 <= 0 < 2) by lia.
  destruct (C4_loadSection_slice data 2 _ 0 Hp Hi)
    as (off & endoff & Hoff & Hend & Hload & Hexact).
  injection Hoff as <-.
  destruct Hend as [[Hlast _]|[_ Hend]]; [discriminate Hlast|].
  injection Hend as <-.
  exists 94, 200. split; [reflexivity|]. split; [reflexivity|].
  split; [exact Hload|].
  apply Hexact. vm_compute. split; discriminate.
Defined.

(** ** The EXTH record walk *)

(** The loop leaves by an exception exactly when a header read fails; the
    sizes it reads play no part in that. *)
Lemma exth_loop_readable {S} (cb : Z -> Z -> bytes -> S -> S) exth k :
  forall pos s,
    headers_readable exth k pos = true ->
    exists s' pos', exth_loop cb exth k pos s = (s', Ok pos').
Proof.
  induction k as [|k IH]; intros pos s H; simpl in *; [eauto|].
  destruct (unpack_II _) as [[tag size]|e]; [|discriminate]. eauto.
Qed.

Lemma exth_loop_unreadable {S} (cb : Z -> Z -> bytes -> S -> S) exth k :
  forall pos s,
    headers_readable exth k pos = false ->
    exists s', exth_loop cb exth k pos s = (s', Raise StructError).
Proof.
  induction k as [|k IH]; intros pos s H; simpl in *; [discriminate|].
  destruct (unpack_II _) as [[tag size]|e] eqn:E; [eauto|].
  exists s. f_equal. f_equal. unfold unpack_II in E.
  destruct (len _ =? 8); [discriminate|]. congruence.
Qed.

Lemma exth_loop_log_length exth k : forall pos log log' r,
  exth_loop log_callback exth k pos log = (log', r) ->
  (List.length log' <= List.length log + k)%nat
  /\ (forall pos', r = Ok pos' ->
        List.length log' = (List.length log + k)%nat).
Proof.
  induction k as [|k IH]; intros pos log log' r H; simpl in H.
  - injection H as <- <-. split; [lia|]. intros; lia.
  - destruct (unpack_II _) as [[tag size]|e].
    + apply IH in H as [H1 H2]. unfold log_callback in *.
      rewrite length_app in *. simpl in *. split; [lia|].
      intros pos' Hr. specialize (H2 pos' Hr). lia.
    + injection H as <- <-. split; [lia|]. intros; discriminate.
Qed.

(** After the block is found, [processEXTH] is the loop for the declared
    item count, and its result tells whether the loop completed. *)
Lemma processEXTH_found {S} (cb : Z -> Z -> bytes -> S -> S) r0 off s :
  let exth := py_slice_from r0 off in
  exth_found exth = true ->
  processEXTH r0 off cb s
  = let '(s', r) :=
      exth_loop cb exth (Z.to_nat (be_uint (py_slice exth 8 12))) 12 s in
    (s', match r with Ok _ => RetTrue | Raise _ => RetFalse end).
Proof.
  intros exth H. unfold processEXTH. fold exth. unfold exth_found in H.
  apply negb_true_iff in H. rewrite H.
  apply orb_false_iff in H as [Hlen _].
  apply Z.ltb_ge in Hlen.
  unfold unpack_I. rewrite unpack_L_ok by (apply len_py_slice_exact; lia).
  destruct (exth_loop _ _ _ _ _) as [s' [p|e]]; reflexivity.
Qed.

Lemma processEXTH_not_found {S} (cb : Z -> Z -> bytes -> S -> S) r0 off s :
  exth_found (py_slice_from r0 off) = false ->
  processEXTH r0 off cb s = (s, RetNone).
Proof.
  intros H. unfold processEXTH. unfold exth_found in H.
  apply negb_false_iff in H. rewrite H. reflexivity.
Qed.


(** ** C10 *)



(** ** C5 *)

Lemma py_slice_app_mid {A} (l front mid back : list A) (a b : Z) :
  l = front ++ mid ++ back -> a = len front -> b = a + len mid ->
  py_slice l a b = mid.
Proof.
  intros -> -> ->. pose proof (len_nonneg front). pose proof (len_nonneg mid).
  rewrite py_slice_take_drop by lia. unfold len.
  rewrite Nat2Z.id, drop_app_length.
  replace (Z.to_nat _) with (List.length mid) by lia.
  apply take_app_length.
Qed.

Lemma py_slice_app_l {A} (l1 l2 : list A) (a b : Z) :
  0 <= a <= b -> b <= len l1 ->
  py_slice (l1 ++ l2) a b = py_slice l1 a b.
Proof.
  intros Ha Hb. rewrite !py_slice_take_drop by lia. unfold len in Hb.
  rewrite drop_app_le by lia.
  rewrite take_app_le by (rewrite length_drop; lia). reflexivity.
Qed.

Lemma exth_loop_well_formed {S} (cb : Z -> Z -> bytes -> S -> S) recs :
  forall (front rest : bytes) (s : S),
    forallb rec_wf recs = true ->
    exth_loop cb (front ++ concat (map rec_bytes recs) ++ rest)
      (List.length recs) (len front) s
    = (run_calls cb (exth_items (len front) recs) s,
       Ok (len front + sum_sizes recs)).
Proof.
  induction recs as [|[h p] recs IH]; intros front rest s Hwf.
  - simpl. rewrite Z.add_0_r. reflexivity.
  - simpl in Hwf. apply andb_true_iff in Hwf as [Hr Hwf].
    unfold rec_wf in Hr. apply andb_true_iff in Hr as [Hh Hsz].
    apply Z.eqb_eq in Hh, Hsz. simpl in Hh, Hsz.
    cbn [List.length map concat exth_loop exth_items sum_sizes fold_right].
    fold (sum_sizes recs).
    change (rec_bytes (h, p)) with (h ++ p).
    change (rec_tag (h, p)) with (be_uint (take 4 h)).
    change (rec_size (h, p)) with (be_uint (drop 4 h)) in *.
    cbn [snd]. set (sz := be_uint (drop 4 h)) in *.
    set (tl := concat (map rec_bytes recs) ++ rest).
    set (exth := front ++ ((h ++ p) ++ concat (map rec_bytes recs)) ++ rest).
    assert (E : exth = front ++ h ++ p ++ tl)
      by (unfold exth, tl; rewrite <- !app_assoc; reflexivity).
    rewrite (py_slice_app_mid exth front h (p ++ tl)) by (done || lia).
    unfold unpack_II. rewrite Hh. simpl Z.eqb. cbv iota. fold sz.
    rewrite (py_slice_app_mid exth (front ++ h) p tl)
      by (rewrite ?len_app, ?E, <- ?app_assoc; done || lia).
    replace exth with ((front ++ h ++ p) ++ concat (map rec_bytes recs) ++ rest)
      by (rewrite E; unfold tl; rewrite <- !app_assoc; reflexivity).
    replace (len front + sz) with (len (front ++ h ++ p))
      by (rewrite !len_app; lia).
    rewrite IH by exact Hwf.
    unfold run_calls. simpl. f_equal. f_equal. rewrite !len_app. lia.
Qed.

Lemma run_calls_log items : forall acc,
  run_calls log_callback items acc = acc ++ items.
Proof.
  induction items as [|[[t p] c] items IH]; intros acc.
  - rewrite app_nil_r. reflexivity.
  - unfold run_calls in *. simpl. rewrite IH. unfold log_callback.
    rewrite <- app_assoc. reflexivity.
Qed.

Lemma exth_items_length pos recs :
  List.length (exth_items pos recs) = List.length recs.
Proof.
  revert pos. induction recs as [|r recs IH]; intros pos; simpl; [done|].
  rewrite IH. reflexivity.
Qed.

Lemma exth_items_payload recs : forall pos,
  forallb rec_wf recs = true ->
  Forall2 (fun it r => it = (rec_tag r, it.1.2, r.2)
                       /\ len it.2 = rec_size r - 8)
    (exth_items pos recs) recs.
Proof.
  induction recs as [|r recs IH]; intros pos Hwf; simpl; [constructor|].
  simpl in Hwf. apply andb_true_iff in Hwf as [Hr Hwf].
  constructor; [|apply IH; exact Hwf].
  unfold rec_wf in Hr. apply andb_true_iff in Hr as [_ Hsz].
  apply Z.eqb_eq in Hsz. simpl. split; [reflexivity | lia].
Qed.

Lemma sum_sizes_len recs :
  forallb rec_wf recs = true ->
  sum_sizes recs = len (concat (map rec_bytes recs)).
Proof.
  induction recs as [|[h p] recs IH]; intros Hwf; [reflexivity|].
  simpl in Hwf. apply andb_true_iff in Hwf as [Hr Hwf].
  unfold rec_wf in Hr. apply andb_true_iff in Hr as [Hh Hsz].
  apply Z.eqb_eq in Hh, Hsz. simpl in Hh, Hsz.
  simpl. rewrite !len_app, <- IH by exact Hwf. unfold rec_bytes. simpl.
  rewrite len_app. fold (sum_sizes recs). lia.
Qed.

(** C5. Let the slice at the EXTH offset be a 12-byte preamble that starts
    with the tag and declares [nitems] records, followed by [nitems]
    well-formed records and any trailing bytes.  Then the walk starts at
    offset 12, calls the callback once per record, in order, with the
    record's tag, its position and its payload of [totalSize - 8] bytes,
    moves the cursor by [totalSize] each time, and reports success; the
    number of calls is [nitems], and 12 plus the sum of the total sizes is
    the final cursor, which is the length of the slice without the
    trailing bytes.  With [storeEXTH] the calls are the insertions into
    the index. *)
Theorem C5_well_formed_walk (r0 : bytes) (off : Z)
    (pre rest : bytes) (recs : list exth_rec) :
  py_slice_from r0 off = pre ++ concat (map rec_bytes recs) ++ rest ->
  len pre = 12 -> take 4 pre = EXTH_tag ->
  be_uint (drop 8 pre) = len recs ->
  forallb rec_wf recs = true ->
  let exth := py_slice_from r0 off in
  let items := exth_items 12 recs in
  (forall (S : Type) (cb : Z -> Z -> bytes -> S -> S) (s : S),
     exth_loop cb exth (List.length recs) 12 s
     = (run_calls cb items s, Ok (12 + sum_sizes recs))
     /\ processEXTH r0 off cb s = (run_calls cb items s, RetTrue))
  /\ processEXTH r0 off log_callback [] = (items, RetTrue)
  /\ len items = be_uint (py_slice exth 8 12)
  /\ 12 + sum_sizes recs = len exth - len rest
  /\ Forall2 (fun it r => it = (rec_tag r, it.1.2, r.2)
                          /\ len it.2 = rec_size r - 8) items recs
  /\ (processEXTH r0 off storeEXTH ∅).1
     = fold_left (fun m it => <[it.1.1 := it.2]> m) items ∅.
Proof.
  intros Hexth Hpre Htag Hn Hwf exth items.
  assert (Hfound : exth_found exth = true).
  { unfold exth_found, exth. rewrite Hexth, len_app.
    pose proof (len_nonneg (concat (map rec_bytes recs) ++ rest)).
    destruct (Z.ltb_spec (len pre + len (concat (map rec_bytes recs) ++ rest)) 12);
      [lia|].
    rewrite py_slice_app_l by lia.
    rewrite py_slice_take_drop by lia. change (take 4 pre = EXTH_tag) in Htag.
    change (Z.to_nat (4 - 0)) with 4%nat. change (Z.to_nat 0) with 0%nat.
    rewrite drop_0, bool_decide_eq_true_2 by exact Htag. reflexivity. }
  assert (Hcount : be_uint (py_slice exth 8 12) = len recs).
  { unfold exth. rewrite Hexth, py_slice_app_l by lia.
    rewrite py_slice_take_drop by lia.
    rewrite take_ge by (rewrite length_drop; unfold len in Hpre; lia).
    exact Hn. }
  assert (Hloop : forall (S : Type) (cb : Z -> Z -> bytes -> S -> S) (s : S),
     exth_loop cb exth (List.length recs) 12 s
     = (run_calls cb items s, Ok (12 + sum_sizes recs))).
  { intros S cb s. unfold exth, items. rewrite Hexth, <- Hpre.
    apply exth_loop_well_formed. exact Hwf. }
  assert (Hproc : forall (S : Type) (cb : Z -> Z -> bytes -> S -> S) (s : S),
     processEXTH r0 off cb s = (run_calls cb items s, RetTrue)).
  { intros S cb s. rewrite processEXTH_found by exact Hfound.
    fold exth. rewrite Hcount. unfold len. rewrite Nat2Z.id, Hloop.
    reflexivity. }
  split; [intros; split; [apply Hloop | apply Hproc]|].
  split.
  { rewrite Hproc. f_equal. apply (run_calls_log items []). }
  split.
  { rewrite Hcount. unfold items, len. rewrite exth_items_length. done. }
  split.
  { unfold exth. rewrite Hexth, !len_app, sum_sizes_len by exact Hwf. lia. }
  split; [apply exth_items_payload; exact Hwf|].
  rewrite Hproc. reflexivity.
Qed.

Lemma C5_witness :
  processEXTH two_record0 0xF8 log_callback []
  = ([(100, 12, bytes_of_string "Ann"); (503, 23, bytes_of_string "Book")],
     RetTrue)
  /\ 12 + (11 + 12) = len (py_slice_from two_record0 0xF8) - 3.
Proof.
  pose (pre := take 12 (py_slice_from two_record0 0xF8)).
  pose (recs := [(be_bytes 4 100 ++ be_bytes 4 11, bytes_of_string "Ann");
                 (be_bytes 4 503 ++ be_bytes 4 12, bytes_of_string "Book")]).
  assert (H1 : py_slice_from two_record0 0xF8
               = pre ++ concat (map rec_bytes recs) ++ zeros 3)
    by (vm_compute; reflexivity).
  assert (H2 : len pre = 12) by (vm_compute; reflexivity).
  assert (H3 : take 4 pre = EXTH_tag) by (vm_compute; reflexivity).
  assert (H4 : be_uint (drop 8 pre) = len recs) by (vm_compute; reflexivity).
  assert (H5 : forallb rec_wf recs = true) by (vm_compute; reflexivity).
  destruct (C5_well_formed_walk two_record0 0xF8 pre (zeros 3) recs
              H1 H2 H3 H4 H5) as (_ & Hlog & _ & Hsum & _).
  split; [exact Hlog | exact Hsum].
Defined.

(** ** Decoding *)

Lemma decode_nil enc : decode enc [] = Ok [].
Proof. destruct enc; reflexivity. Qed.


(** ASCII bytes decode to their own values under both codecs. *)
Lemma decode_ascii enc s :
  Forall (fun b => byte_val b < 0x80) s ->
  decode enc s = Ok (map byte_val s).
Proof.
  induction 1 as [|b s Hb _ IH]; [apply decode_nil|].
  pose proof (byte_val_range b) as Hr.
  destruct enc; simpl in *.
  - unfold cp1252_char. destruct (Z.ltb_spec (byte_val b) 0x80); [|lia].
    simpl. rewrite IH. reflexivity.
  - destruct (Z.ltb_spec (byte_val b) 0x80); [|lia].
    rewrite IH. reflexivity.
Qed.

(** ** C1 *)


(** A block that is not corrupt is walked to the end. *)
Lemma processEXTH_intact {S} (cb : Z -> Z -> bytes -> S -> S) r0 off s :
  ~ exth_corrupt r0 off -> (processEXTH r0 off cb s).2 = RetTrue.
Proof.
  intros Hc. unfold exth_corrupt in Hc.
  set (exth := py_slice_from r0 off) in *.
  assert (Hf : exth_found exth = true).
  { unfold exth_found. destruct (Z.ltb_spec (len exth) 12); [tauto|].
    case_bool_decide; [reflexivity | tauto]. }
  rewrite processEXTH_found by exact Hf. fold exth.
  destruct (headers_readable exth
              (Z.to_nat (be_uint (py_slice exth 8 12))) 12) eqn:Hr; [|tauto].
  destruct (exth_loop_readable cb exth _ 12 s Hr) as (s' & p & ->).
  reflexivity.
Qed.

Lemma getattr_no_record b name tag :
  EXTH_RMAP_STRINGS !! name = Some tag ->
  meta_array b !! tag = None ->
  __getattr__ b name = Ok [].
Proof.
  intros Hn Hm. unfold __getattr__. rewrite Hn, Hm. simpl.
  destruct (EXTH_MAP_CONVERSIONS tag); simpl; apply decode_nil.
Qed.



(** ** C3 *)

Lemma nonempty_true {A} (l : list A) : l <> [] -> nonempty l = true.
Proof. destruct l; [done | reflexivity]. Qed.

Lemma string_of_uint_ascii u :
  Forall (fun b => byte_val b < 0x80)
    (bytes_of_string (NilEmpty.string_of_uint u)).
Proof.
  unfold bytes_of_string.
  induction u; simpl; constructor; try assumption; vm_compute; reflexivity.
Qed.

Lemma str_of_int_ascii v : Forall (fun b => byte_val b < 0x80) (str_of_int v).
Proof.
  unfold str_of_int, NilZero.string_of_uint.
  destruct (N.to_uint (Z.to_N v)) eqn:E; try apply string_of_uint_ascii.
  repeat constructor.
Qed.

(** The lookup of a 2-byte StartOffset raises struct.error. *)
Lemma C3_counterexample :
  ~ C3_as_stated short_offset_doc
  /\ exists b, __init__ short_offset_doc = Ok b
       /\ meta_array b !! 116 = Some (be_bytes 2 7)
       /\ __getattr__ b "startoffset" = Raise StructError.
Proof.
  assert (E : exists b, __init__ short_offset_doc = Ok b
                /\ meta_array b !! 116 = Some (be_bytes 2 7)
                /\ __getattr__ b "startoffset" = Raise StructError).
  { vm_compute. eexists. split; [reflexivity|]. split; reflexivity. }
  split; [|exact E].
  destruct E as (b & Hb & Hm & Hg). intros Hc.
  specialize (Hc b "startoffset"%string 116 (be_bytes 2 7) Hb).
  rewrite Hg in Hc. discriminate Hc; try done.
  left; reflexivity.
Qed.

(** C3, amended.  For every object and every name of the name table, with
    [v] the raw value stored under the name's tag (empty when absent):
    under tag 116 or 201 a 4-byte [v] is returned as the decimal digits of
    its big-endian value, and under tag 406 an 8-byte [v] likewise; a
    non-empty [v] of any other length raises struct.error; an empty [v]
    is returned as the empty string for every tag; under the other tags
    [v] is decoded as it is.  The codec is UTF-8 when [mobi_codepage] is
    65001 and Windows-1252 for every other value. *)
Theorem C3_field_conversion (b : MobiBook) (name : string) (tag : Z) :
  EXTH_RMAP_STRINGS !! name = Some tag ->
  let v := default [] (meta_array b !! tag) in
  let enc := if mobi_codepage b =? 65001 then Utf8 else Windows1252 in
  (tag = 116 \/ tag = 201 ->
     (len v = 4 -> __getattr__ b name = Ok (ascii_text (str_of_int (be_uint v))))
     /\ (v <> [] -> len v <> 4 -> __getattr__ b name = Raise StructError))
  /\ (tag = 406 ->
     (len v = 8 -> __getattr__ b name = Ok (ascii_text (str_of_int (be_uint v))))
     /\ (v <> [] -> len v <> 8 -> __getattr__ b name = Raise StructError))
  /\ (v = [] -> __getattr__ b name = Ok [])
  /\ (tag <> 116 -> tag <> 201 -> tag <> 406 -> __getattr__ b name = decode enc v)
  /\ CODEPAGE_MAP_get (mobi_codepage b) = enc.
Proof.
  intros Hn v enc.
  assert (Henc : CODEPAGE_MAP_get (mobi_codepage b) = enc).
  { unfold CODEPAGE_MAP_get, enc, DEFAULT_ENCODING.
    destruct (Z.eqb_spec (mobi_codepage b) 1252) as [->|]; [reflexivity|].
    destruct (mobi_codepage b =? 65001); reflexivity. }
  assert (Hget : __getattr__ b name
    = (v' ← match EXTH_MAP_CONVERSIONS tag with
            | Some fmt => if nonempty v
                          then n ← unpack_conversion fmt v; Ok (str_of_int n)
                          else Ok v
            | None => Ok v
            end; decode enc v')).
  { unfold __getattr__. rewrite Hn, Henc. reflexivity. }
  assert (Hconv : forall fmt w, EXTH_MAP_CONVERSIONS tag = Some fmt ->
            unpack_conversion fmt = (fun s => if len s =? w then Ok (be_uint s)
                                              else Raise StructError) ->
            (len v = w -> 0 < w ->
               __getattr__ b name = Ok (ascii_text (str_of_int (be_uint v))))
            /\ (v <> [] -> len v <> w -> __getattr__ b name = Raise StructError)).
  { intros fmt w Hf Hu. rewrite Hget, Hf, Hu. split.
    - intros Hl Hw. rewrite nonempty_true
        by (intros ->; change (len (@nil byte)) with 0 in Hl; lia).
      rewrite Hl, Z.eqb_refl. cbn [mbind result_bind].
      apply decode_ascii, str_of_int_ascii.
    - intros Hv Hl. rewrite nonempty_true by exact Hv.
      destruct (Z.eqb_spec (len v) w); [done | reflexivity]. }
  split; [|split; [|split; [|split; [|exact Henc]]]].
  - intros Ht.
    destruct (Hconv FmtI 4) as [H1 H2]; [destruct Ht as [->| ->]; reflexivity
                                        | reflexivity |].
    split; [intros; apply H1; [done | lia] | exact H2].
  - intros ->. destruct (Hconv FmtQ 8) as [H1 H2]; [reflexivity..|].
    split; [intros; apply H1; [done | lia] | exact H2].
  - intros Hv. rewrite Hget, Hv.
    destruct (EXTH_MAP_CONVERSIONS tag); simpl; apply decode_nil.
  - intros H1 H2 H3. rewrite Hget. unfold EXTH_MAP_CONVERSIONS.
    destruct (Z.eqb_spec tag 116); [done|].
    destruct (Z.eqb_spec tag 201); [done|].
    destruct (Z.eqb_spec tag 406); [done|]. reflexivity.
Qed.

Lemma C3_witness :
  exists b, __init__ offset_doc = Ok b
    /\ EXTH_RMAP_STRINGS !! "startoffset"%string = Some 116
    /\ __getattr__ b "startoffset"
       = Ok (ascii_text (bytes_of_string "1234"))
    /\ CODEPAGE_MAP_get (mobi_codepage b) = Utf8.
Proof.
  assert (E : exists b, __init__ offset_doc = Ok b
                /\ meta_array b !! 116 = Some (be_bytes 4 1234)
                /\ mobi_codepage b = 65001).
  { vm_compute. eexists. split; [reflexivity|]. split; reflexivity. }
  destruct E as (b & Hb & Hm & Hcp).
  assert (Hn : EXTH_RMAP_STRINGS !! "startoffset"%string = Some 116)
    by (vm_compute; reflexivity).
  destruct (C3_field_conversion b "startoffset" 116 Hn)
    as (H4 & _ & _ & _ & Henc).
  exists b. split; [exact Hb|]. split; [exact Hn|]. split.
  - destruct (H4 (or_introl eq_refl)) as [Hok _].
    rewrite Hm in Hok. apply Hok. vm_compute. reflexivity.
  - rewrite Henc, Hcp. reflexivity.
Defined.

(** ** C2 *)




(** * Further properties *)

(** ** Big-endian values and sub-slices *)

Lemma be_uint_bound s : be_uint s < 256 ^ len s.
Proof.
  induction s as [|b s IH] using rev_ind; [reflexivity|].
  rewrite be_uint_app, len_app. change (len [b]) with 1.
  unfold be_uint at 2. simpl.
  pose proof (byte_val_range b). pose proof (len_nonneg s).
  rewrite Z.pow_add_r by lia. lia.
Qed.

Lemma take_py_slice {A} (l : list A) (a b k : Z) :
  0 <= a -> 0 <= k <= b - a ->
  take (Z.to_nat k) (py_slice l a b) = py_slice l a (a + k).
Proof.
  intros Ha Hk. rewrite !py_slice_take_drop by lia.
  rewrite take_take. f_equal. lia.
Qed.

Lemma drop_py_slice {A} (l : list A) (a b k : Z) :
  0 <= a -> 0 <= k <= b - a ->
  drop (Z.to_nat k) (py_slice l a b) = py_slice l (a + k) b.
Proof.
  intros Ha Hk. rewrite !py_slice_take_drop by lia.
  rewrite skipn_firstn_comm, drop_drop. f_equal; [lia|]. f_equal. lia.
Qed.

Lemma py_slice_split {A} (l : list A) (a m b : Z) :
  0 <= a <= m -> m <= b ->
  py_slice l a b = py_slice l a m ++ py_slice l m b.
Proof.
  intros Ha Hm.
  rewrite <- (take_drop (Z.to_nat (m - a)) (py_slice l a b)).
  rewrite take_py_slice, drop_py_slice by lia.
  replace (a + (m - a)) with m by lia. reflexivity.
Qed.

(** [hi << k | lo] is the concatenation of the two bit fields when [lo]
    fits [k] bits. *)
Lemma lor_shiftl_add (hi lo k : Z) :
  0 <= k -> 0 <= lo < 2 ^ k -> Z.lor (Z.shiftl hi k) lo = hi * 2 ^ k + lo.
Proof.
  intros Hk Hlo.
  assert (Hland : Z.land (Z.shiftl hi k) lo = 0).
  { apply Z.bits_inj'. intros i Hi. rewrite Z.land_spec, Z.bits_0.
    destruct (Z.lt_ge_cases i k).
    - rewrite Z.shiftl_spec_low by lia. reflexivity.
    - replace (Z.testbit lo i) with false; [apply andb_false_r|].
      symmetry. destruct (Z.eq_dec lo 0) as [->|]; [apply Z.bits_0|].
      apply Z.bits_above_log2; [lia|].
      apply Z.log2_lt_pow2; [lia|].
      apply Z.lt_le_trans with (2 ^ k); [lia|].
      apply Z.pow_le_mono_r; lia. }
  rewrite <- Z.lxor_lor by exact Hland.
  rewrite <- Z.add_nocarry_lxor by exact Hland.
  rewrite Z.shiftl_mul_pow2 by lia. reflexivity.
Qed.

(** ** X1, X2: the section table *)

(** The descriptor that one round of the loop appends. *)
Lemma unpack_LBBBB_section data (j : Z) :
  0 <= j -> 78 + j * 8 + 8 <= len data ->
  unpack_LBBBB (py_slice data (78 + j * 8) (78 + j * 8 + 8))
  = Ok (sec_offset (section_at data j), sec_flags (section_at data j),
        be_uint (py_slice data (78 + j * 8 + 5) (78 + j * 8 + 6)),
        be_uint (py_slice data (78 + j * 8 + 6) (78 + j * 8 + 7)),
        be_uint (py_slice data (78 + j * 8 + 7) (78 + j * 8 + 8))).
Proof.
  intros Hj Hfit. set (p := 78 + j * 8) in *.
  unfold unpack_LBBBB. rewrite len_py_slice_exact by lia.
  replace (p + 8 - p =? 8) with true by (symmetry; apply Z.eqb_eq; lia).
  unfold section_at, sec_offset, sec_flags. fold p. cbn [fst snd].
  change 7%nat with (Z.to_nat 7). change 6%nat with (Z.to_nat 6).
  change 5%nat with (Z.to_nat 5). change 4%nat with (Z.to_nat 4).
  change 1%nat with (Z.to_nat 1).
  rewrite !drop_py_slice by lia. rewrite !take_py_slice by lia.
  replace (p + 4 + 1) with (p + 5) by lia.
  replace (p + 5 + 1) with (p + 6) by lia.
  replace (p + 6 + 1) with (p + 7) by lia. reflexivity.
Qed.

Lemma section_uniqueID data (j : Z) :
  0 <= j -> 78 + j * 8 + 8 <= len data ->
  Z.lor (Z.lor
    (Z.shiftl (be_uint (py_slice data (78 + j * 8 + 5) (78 + j * 8 + 6))) 16)
    (Z.shiftl (be_uint (py_slice data (78 + j * 8 + 6) (78 + j * 8 + 7))) 8))
    (be_uint (py_slice data (78 + j * 8 + 7) (78 + j * 8 + 8)))
  = sec_uniqueID (section_at data j).
Proof.
  intros Hj Hfit. set (p := 78 + j * 8) in *.
  unfold sec_uniqueID, section_at. fold p. cbn [snd].
  assert (Hb : forall a, p + 5 <= a -> a + 1 <= p + 8 ->
            0 <= be_uint (py_slice data a (a + 1)) < 256).
  { intros a H1 H2. split; [apply be_uint_nonneg|].
    pose proof (be_uint_bound (py_slice data a (a + 1))) as Hbd.
    rewrite len_py_slice_exact in Hbd by lia.
    replace (a + 1 - a) with 1 in Hbd by lia. exact Hbd. }
  pose proof (Hb (p + 5)) as H5. pose proof (Hb (p + 6)) as H6.
  pose proof (Hb (p + 7)) as H7.
  replace (p + 5 + 1) with (p + 6) in * by lia.
  replace (p + 6 + 1) with (p + 7) in * by lia.
  replace (p + 7 + 1) with (p + 8) in * by lia.
  set (a2 := be_uint (py_slice data (p + 5) (p + 6))) in *.
  set (a3 := be_uint (py_slice data (p + 6) (p + 7))) in *.
  set (a4 := be_uint (py_slice data (p + 7) (p + 8))) in *.
  rewrite (Z.shiftl_mul_pow2 a3 8) by lia.
  rewrite (lor_shiftl_add a2 (a3 * 2 ^ 8) 16) by lia.
  replace (a2 * 2 ^ 16 + a3 * 2 ^ 8) with (Z.shiftl (a2 * 2 ^ 8 + a3) 8)
    by (rewrite Z.shiftl_mul_pow2 by lia; lia).
  rewrite lor_shiftl_add by lia.
  assert (Hsplit : py_slice data (p + 5) (p + 8)
                   = py_slice data (p + 5) (p + 6)
                     ++ py_slice data (p + 6) (p + 7)
                     ++ py_slice data (p + 7) (p + 8)).
  { rewrite (py_slice_split data (p + 5) (p + 6) (p + 8)) by lia.
    rewrite (py_slice_split data (p + 6) (p + 7) (p + 8)) by lia.
    reflexivity. }
  rewrite Hsplit, !be_uint_app, !len_app.
  rewrite !len_py_slice_exact by lia. fold a2 a3 a4.
  replace (p + 7 - (p + 6) + (p + 8 - (p + 7))) with 2 by lia.
  replace (p + 8 - (p + 7)) with 1 by lia. lia.
Qed.

Lemma parseSections_loop_ok data k : forall i acc,
  0 <= i -> 78 + (i + Z.of_nat k) * 8 <= len data ->
  parseSections_loop data i k acc
  = Ok (acc ++ (section_at data <$> seqZ i (Z.of_nat k))).
Proof.
  induction k as [|k IH]; intros i acc Hi Hfit.
  - simpl. rewrite app_nil_r. reflexivity.
  - cbn [parseSections_loop].
    rewrite unpack_LBBBB_section by lia. cbn [mbind result_bind].
    rewrite section_uniqueID by lia.
    rewrite IH by lia. rewrite (seqZ_cons i) by lia.
    rewrite <- app_assoc. cbn [fmap list_fmap app].
    replace (Z.succ i) with (i + 1) by lia.
    replace (Z.pred (Z.of_nat (S k))) with (Z.of_nat k) by lia.
    unfold sec_offset, sec_flags, sec_uniqueID.
    destruct (section_at data i) as [[o f] u]. reflexivity.
Qed.

(** When [parseSections] returns, and what. *)
Lemma parseSections_iff (data : bytes) (n : Z)
    (secs : list section_desc) :
  parseSections data (py_slice data 0 78) = Ok (n, secs)
  <-> doc_num_sections data = Ok n
      /\ 78 + n * 8 <= len data
      /\ secs = section_at data <$> seqZ 0 n.
Proof.
  assert (Hok : doc_num_sections data = Ok n -> 78 + n * 8 <= len data ->
            parseSections data (py_slice data 0 78)
            = Ok (n, section_at data <$> seqZ 0 n)).
  { intros Hn Hfit. unfold parseSections. fold (doc_num_sections data).
    rewrite Hn. cbn [mbind result_bind].
    apply unpack_H_inv in Hn as [_ Hn].
    pose proof (be_uint_nonneg (py_slice (py_slice data 0 78) 76 78)).
    rewrite parseSections_loop_ok by lia.
    rewrite Z2Nat.id by lia. reflexivity. }
  split.
  - intros Hp. pose proof Hp as Hp'.
    apply parseSections_inv in Hp' as (Hn & _ & Hpos).
    fold (doc_num_sections data) in Hn.
    assert (Hfit : 78 + n * 8 <= len data).
    { destruct (Z.le_gt_cases (78 + n * 8) (len data)) as [|Hshort]; [done|].
      exfalso. pose proof Hn as Hn'. apply unpack_H_inv in Hn' as [Hl _].
      rewrite py_slice_prefix in Hl by lia.
      assert (78 <= len data).
      { destruct (Z.le_gt_cases 78 (len data)); [done|].
        pose proof (len_py_slice_short data 76 78). lia. }
      unfold parseSections in Hp. fold (doc_num_sections data) in Hp.
      rewrite Hn in Hp. cbn [mbind result_bind] in Hp.
      rewrite parseSections_loop_short in Hp by lia. discriminate Hp. }
    split; [exact Hn|]. split; [exact Hfit|].
    rewrite (Hok Hn Hfit) in Hp. congruence.
  - intros (Hn & Hfit & ->). apply Hok; assumption.
Qed.

(** X1. [parseSections] returns a table exactly when the 2-byte count at
    offset 76 can be read and the buffer holds [78 + count*8] bytes; the
    table then has one descriptor per index, made of the big-endian offset
    at [78 + j*8], the flags byte after it and the 3-byte identifier after
    that (the shifts and ors of line 148 put the three bytes back in
    big-endian order). *)
Theorem X1_parseSections_table (data : bytes) (n : Z)
    (secs : list section_desc) :
  parseSections data (py_slice data 0 78) = Ok (n, secs)
  <-> doc_num_sections data = Ok n
      /\ 78 + n * 8 <= len data
      /\ secs = section_at data <$> seqZ 0 n.
Proof. apply parseSections_iff. Qed.

Lemma parseSections_fits data n secs :
  parseSections data (py_slice data 0 78) = Ok (n, secs) ->
  0 <= n /\ 78 + n * 8 <= len data /\ secs = section_at data <$> seqZ 0 n.
Proof.
  intros Hp. apply parseSections_iff in Hp as (Hn & Hfit & Hs).
  apply unpack_H_inv in Hn as [_ ->].
  split; [apply be_uint_nonneg | done].
Qed.

Lemma be_uint_slice_range data (a b : Z) :
  0 <= a <= b -> b <= len data ->
  0 <= be_uint (py_slice data a b) < 256 ^ (b - a).
Proof.
  intros Ha Hb. split; [apply be_uint_nonneg|].
  pose proof (be_uint_bound (py_slice data a b)) as H.
  rewrite len_py_slice_exact in H by lia. exact H.
Qed.

(** X2. In a table that [parseSections] returns, the count is below
    65536 and equals the number of descriptors, every offset is an
    unsigned 32-bit value, every flags field an unsigned byte and every
    identifier an unsigned 24-bit value. *)
Theorem X2_section_table_ranges (data : bytes) (n : Z)
    (secs : list section_desc) :
  parseSections data (py_slice data 0 78) = Ok (n, secs) ->
  0 <= n < 65536 /\ len secs = n
  /\ Forall (fun s => 0 <= sec_offset s < 2 ^ 32
                      /\ 0 <= sec_flags s < 2 ^ 8
                      /\ 0 <= sec_uniqueID s < 2 ^ 24) secs.
Proof.
  intros Hp. pose proof Hp as Hinv.
  apply parseSections_inv in Hinv as (Hn & Hlen & _).
  apply parseSections_fits in Hp as (Hpos & Hfit & ->).
  split; [|split; [exact Hlen|]].
  - apply unpack_H_inv in Hn as [Hl ->].
    pose proof (be_uint_bound (py_slice (py_slice data 0 78) 76 78)) as Hb.
    rewrite Hl in Hb. pose proof (be_uint_nonneg (py_slice (py_slice data 0 78) 76 78)).
    change (256 ^ 2) with 65536 in Hb. lia.
  - apply Forall_fmap, Forall_forall. intros j Hj.
    apply elem_of_seqZ in Hj. unfold section_at, sec_offset, sec_flags,
      sec_uniqueID. cbn [fst snd compose].
    pose proof (be_uint_slice_range data (78 + j * 8) (78 + j * 8 + 4)) as H1.
    pose proof (be_uint_slice_range data (78 + j * 8 + 4) (78 + j * 8 + 5)) as H2.
    pose proof (be_uint_slice_range data (78 + j * 8 + 5) (78 + j * 8 + 8)) as H3.
    replace (78 + j * 8 + 4 - (78 + j * 8)) with 4 in H1 by lia.
    replace (78 + j * 8 + 5 - (78 + j * 8 + 4)) with 1 in H2 by lia.
    replace (78 + j * 8 + 8 - (78 + j * 8 + 5)) with 3 in H3 by lia.
    change (256 ^ 4) with (2 ^ 32) in H1. change (256 ^ 1) with (2 ^ 8) in H2.
    change (256 ^ 3) with (2 ^ 24) in H3.
    split; [apply H1; lia | split; [apply H2; lia | apply H3; lia]].
Qed.

Lemma X2_witness :
  let data := mk_doc2 "two" 200 (zeros 300) in
  len [(94, 0, 0); (200, 0, 0)] = 2
  /\ Forall (fun s => 0 <= sec_offset s < 2 ^ 32
                      /\ 0 <= sec_flags s < 2 ^ 8
                      /\ 0 <= sec_uniqueID s < 2 ^ 24)
       [(94, 0, 0); (200, 0, 0)].
Proof.
  intros data.
  assert (Hp : parseSections data (py_slice data 0 78)
               = Ok (2, [(94, 0, 0); (200, 0, 0)]))
    by (vm_compute; reflexivity).
  exact (proj2 (X2_section_table_ranges data 2 _ Hp)).
Defined.

(** ** X3, X4: loading sections *)

(** X3. For a table of [n] descriptors, [loadSection] raises IndexError
    for every index [i >= n]. *)
Theorem X3_loadSection_out_of_range (data : bytes) (n : Z)
    (secs : list section_desc) (i : Z) :
  len secs = n -> n <= i ->
  loadSection data n secs i = Raise IndexError.
Proof.
  intros Hlen Hi. pose proof (len_nonneg secs).
  unfold loadSection.
  destruct (Z.eqb_spec (i + 1) n); [lia|].
  unfold py_index. destruct (Z.ltb_spec (i + 1) 0); [lia|].
  destruct (Z.ltb_spec (i + 1) 0); [lia|].
  rewrite (lookup_ge_None_2 secs (Z.to_nat (i + 1)))
    by (unfold len in *; lia).
  reflexivity.
Qed.

Lemma X3_witness :
  loadSection (mk_doc "one" (zeros 10)) 1 [(86, 0, 0)] 1 = Raise IndexError.
Proof.
  apply X3_loadSection_out_of_range; [reflexivity | lia].
Defined.

Lemma cuts_length data offs : List.length (cuts data offs) = List.length offs.
Proof. induction offs as [|a offs IH]; simpl; congruence. Qed.

Lemma cuts_concat data : forall a rest,
  0 <= a -> Sorted Z.le ((a :: rest) ++ [len data]) ->
  concat (cuts data (a :: rest)) = py_slice data a (len data).
Proof.
  intros a rest. revert a.
  induction rest as [|b rest IH]; intros a Ha Hs.
  - simpl. apply app_nil_r.
  - assert (Hss : StronglySorted Z.le ((a :: b :: rest) ++ [len data])).
    { apply Sorted_StronglySorted; [|exact Hs]. intros x y z. lia. }
    simpl in Hss. apply StronglySorted_inv in Hss as [Hss Hall].
    apply Forall_cons in Hall as [Hab Hall].
    apply Forall_app in Hall as [_ Hall].
    apply Forall_inv in Hall.
    assert (Hbl : b <= len data).
    { apply StronglySorted_inv in Hss as [_ Hb].
      apply Forall_app in Hb as [_ Hb]. apply Forall_inv in Hb. exact Hb. }
    cbn [cuts concat hd].
    change (py_slice data b (hd (len data) rest) ++ concat (cuts data rest))
      with (concat (cuts data (b :: rest))).
    rewrite IH; [|lia|].
    + symmetry. apply py_slice_split; lia.
    + simpl in Hs. apply Sorted_inv in Hs as [Hs _]. exact Hs.
Qed.

Lemma loadSection_cuts data n secs : forall suf pre,
  secs = pre ++ suf -> len secs = n ->
  mapM (loadSection data n secs) (seqZ (len pre) (len suf))
  = Ok (cuts data (sec_offset <$> suf)).
Proof.
  induction suf as [|s suf IH]; intros pre Hsecs Hlen; [reflexivity|].
  pose proof (len_nonneg pre) as Hpre. pose proof (len_nonneg suf) as Hsuf.
  assert (Hls : len (s :: suf) = 1 + len suf) by (unfold len; simpl; lia).
  rewrite seqZ_cons by lia. cbn [mapM].
  replace (Z.succ (len pre)) with (len (pre ++ [s]))
    by (rewrite len_app; change (len [s]) with 1; lia).
  replace (Z.pred (len (s :: suf))) with (len suf) by lia.
  rewrite (IH (pre ++ [s]))
    by (rewrite <- ?app_assoc; simpl; assumption).
  assert (Hidx : py_index secs (len pre) = Ok s).
  { unfold py_index. destruct (Z.ltb_spec (len pre) 0); [lia|].
    destruct (Z.ltb_spec (len pre) 0); [lia|].
    unfold len. rewrite Nat2Z.id, Hsecs, list_lookup_middle by reflexivity.
    reflexivity. }
  assert (Hload : loadSection data n secs (len pre)
                  = Ok (py_slice data (sec_offset s)
                          (hd (len data) (sec_offset <$> suf)))).
  { unfold loadSection. rewrite Hidx.
    rewrite <- Hlen, Hsecs, len_app, Hls.
    destruct suf as [|s' suf'].
    - change (len []) with 0.
      destruct (Z.eqb_spec (len pre + 1) (len pre + (1 + 0))); [|lia].
      reflexivity.
    - pose proof (len_nonneg (s' :: suf')).
      assert (len (s' :: suf') = 1 + len suf') by (unfold len; simpl; lia).
      destruct (Z.eqb_spec (len pre + 1) (len pre + (1 + len (s' :: suf'))));
        [pose proof (len_nonneg suf'); lia|].
      unfold py_index. destruct (Z.ltb_spec (len pre + 1) 0); [lia|].
      destruct (Z.ltb_spec (len pre + 1) 0); [lia|].
      replace (Z.to_nat (len pre + 1)) with (List.length (pre ++ [s]))
        by (rewrite length_app; unfold len; simpl; lia).
      replace (pre ++ s :: s' :: suf') with ((pre ++ [s]) ++ s' :: suf')
        by (rewrite <- app_assoc; reflexivity).
      rewrite list_lookup_middle by reflexivity. reflexivity. }
  rewrite Hload. reflexivity.
Qed.

(** X4. When the offsets of a parsed table do not decrease and the last
    one does not exceed the document length, loading the sections 0 to
    n-1 in turn succeeds and the loaded parts, put end to end, are the
    document from the first section's offset on: the sections neither
    overlap nor leave a gap. *)
Theorem X4_sections_tile_document (data : bytes) (n : Z)
    (secs : list section_desc) (first : section_desc) :
  parseSections data (py_slice data 0 78) = Ok (n, secs) ->
  secs !! 0%nat = Some first ->
  Sorted Z.le ((sec_offset <$> secs) ++ [len data]) ->
  exists parts,
    mapM (loadSection data n secs) (seqZ 0 n) = Ok parts
    /\ len parts = n
    /\ concat parts = py_slice_from data (sec_offset first).
Proof.
  intros Hp Hfirst Hsorted.
  assert (Hnn : Forall (fun s => 0 <= sec_offset s) secs).
  { unfold parseSections in Hp. case_bind Hp. case_bind Hp.
    injection Hp as _ <-.
    eapply parseSections_loop_offsets; [exact E0 | constructor]. }
  apply parseSections_inv in Hp as (_ & Hlen & _).
  exists (cuts data (sec_offset <$> secs)).
  pose proof (loadSection_cuts data n secs secs [] eq_refl Hlen) as Hm.
  change (len []) with 0 in Hm. rewrite Hlen in Hm.
  split; [exact Hm|]. split.
  - rewrite <- Hlen. unfold len. rewrite cuts_length, length_fmap.
    reflexivity.
  - destruct secs as [|s secs]; [discriminate|].
    injection Hfirst as ->. apply Forall_cons in Hnn as [H0 _].
    cbn [fmap list_fmap] in *. rewrite cuts_concat by assumption.
    rewrite py_slice_take_drop by (pose proof (len_nonneg data); lia).
    unfold py_slice_from, slice_bound.
    destruct (Z.ltb_spec (sec_offset first) 0); [lia|].
    assert (Hle : sec_offset first <= len data).
    { apply Sorted_StronglySorted in Hsorted; [|intros x y z; lia].
      simpl in Hsorted. apply StronglySorted_inv in Hsorted as [_ Hall].
      apply Forall_app in Hall as [_ Hall].
      apply Forall_inv in Hall. exact Hall. }
    rewrite Z.min_l, Z.max_r by lia.
    apply take_ge. rewrite length_drop. unfold len. lia.
Qed.

Lemma X4_witness :
  let data := mk_doc2 "two" 200 (zeros 300) in
  exists parts,
    mapM (loadSection data 2 [(94, 0, 0); (200, 0, 0)]) (seqZ 0 2) = Ok parts
    /\ len parts = 2
    /\ concat parts = py_slice_from data 94.
Proof.
  intros data.
  assert (Hp : parseSections data (py_slice data 0 78)
               = Ok (2, [(94, 0, 0); (200, 0, 0)]))
    by (vm_compute; reflexivity).
  assert (Hs : Sorted Z.le ((sec_offset <$> [(94, 0, 0); (200, 0, 0)])
                            ++ [len data])).
  { repeat constructor; vm_compute; discriminate. }
  exact (X4_sections_tile_document data 2 _ (94, 0, 0) Hp eq_refl Hs).
Defined.

(** ** X5, X6: the outcomes of construction *)

Lemma unpack_H_raise s e : unpack_H s = Raise e -> e = StructError.
Proof. unfold unpack_H. destruct (len s =? 2); [discriminate | congruence]. Qed.

Lemma unpack_L_raise s e : unpack_L s = Raise e -> e = StructError.
Proof. unfold unpack_L. destruct (len s =? 4); [discriminate | congruence]. Qed.

Lemma unpack_Q_raise s e : unpack_Q s = Raise e -> e = StructError.
Proof. unfold unpack_Q. destruct (len s =? 8); [discriminate | congruence]. Qed.

Lemma unpack_II_raise s e : unpack_II s = Raise e -> e = StructError.
Proof. unfold unpack_II. destruct (len s =? 8); [discriminate | congruence]. Qed.

Lemma unpack_LLLL_raise s e : unpack_LLLL s = Raise e -> e = StructError.
Proof.
  unfold unpack_LLLL. destruct (len s =? 16); [discriminate | congruence].
Qed.

Lemma unpack_from_L_raise s off e :
  unpack_from_L s off = Raise e -> e = StructError.
Proof.
  unfold unpack_from_L. destruct (len s - off <? 4); [congruence | discriminate].
Qed.

Lemma read_extra_data_flags_raise r0 ml mv cur e :
  read_extra_data_flags r0 ml mv cur = Raise e -> e = StructError.
Proof.
  unfold read_extra_data_flags.
  destruct ((228 <=? ml) && (5 <=? mv)); [apply unpack_H_raise | discriminate].
Qed.

Lemma parseMobiHeader_raise self e :
  parseMobiHeader self = Raise e -> e = StructError.
Proof.
  unfold parseMobiHeader. intros H.
  step_bind H; [|injection H as <-; eauto using unpack_L_raise].
  step_bind H; [|injection H as <-; eauto using unpack_L_raise].
  step_bind H; [|injection H as <-; eauto using unpack_L_raise].
  step_bind H; [|injection H as <-; eauto using unpack_from_L_raise].
  step_bind H; [|injection H as <-; eauto using read_extra_data_flags_raise].
  step_bind H; [|injection H as <-; eauto using unpack_H_raise].
  step_bind H; [|injection H as <-; eauto using unpack_LLLL_raise].
  destruct a5 as [[[dp dc] ds] dr].
  step_bind H; [discriminate | injection H as <-; eauto using unpack_L_raise].
Qed.

Lemma parseSections_raise data hdr e :
  parseSections data hdr = Raise e -> e = StructError.
Proof.
  unfold parseSections. intros H.
  step_bind H; [|injection H as <-; eauto using unpack_H_raise].
  step_bind H; [discriminate|]. injection H as <-.
  revert E0. generalize (@nil section_desc). generalize 0.
  induction (Z.to_nat a) as [|k IH]; intros i acc H; simpl in H;
    [discriminate|].
  destruct (unpack_LBBBB _) as [[[[[o a1] a2] a3] a4]|e'] eqn:Eu; simpl in H.
  - eauto.
  - injection H as <-. eauto using unpack_LBBBB_raise.
Qed.

(** Loading section 0 of a parsed table. *)
Lemma loadSection_zero data n secs :
  parseSections data (py_slice data 0 78) = Ok (n, secs) ->
  loadSection data n secs 0
  = if n =? 0 then Raise IndexError else Ok (section0_of data n).
Proof.
  intros Hp. apply parseSections_fits in Hp as (Hn & Hfit & ->).
  unfold loadSection, section0_of.
  destruct (Z.eqb_spec n 0) as [->|Hn0].
  - reflexivity.
  - rewrite (seqZ_cons 0 n) by lia. cbn [fmap list_fmap].
    change (0 + 1) with 1.
    destruct (Z.eqb_spec 1 n) as [<-|Hn1].
    + reflexivity.
    + destruct (Z.eqb_spec n 1); [lia|].
      rewrite (seqZ_cons (Z.succ 0) (Z.pred n)) by lia. reflexivity.
Qed.

Lemma header_fits_of_reads r0 ef :
  0xB8 <= len r0 ->
  read_extra_data_flags r0 (be_uint (py_slice r0 0x14 0x18))
    (be_uint (py_slice r0 0x68 0x6C)) 0 = Ok ef ->
  header_fits r0.
Proof.
  intros Hlen Hef. split; [exact Hlen|]. intros Hg.
  unfold read_extra_data_flags in Hef. fold (flags_guard r0) in Hef.
  rewrite Hg in Hef. apply unpack_H_inv in Hef as [Hl _].
  destruct (Z.le_gt_cases 0xF4 (len r0)); [done|].
  pose proof (len_py_slice_short r0 0xF2 0xF4). lia.
Qed.


(** X5. Construction returns an object exactly when the container tag
    matches, the section count can be read and is at least 1, the buffer
    holds the whole section table, and section 0 (as the table places it)
    holds the fixed header fields: 0xB8 bytes, and 0xF4 bytes when the
    guard of the extra-data flags holds.  The object's [record0] is then
    that section 0. *)
Theorem X5_construction_succeeds_iff (data : bytes) :
  (exists b, __init__ data = Ok b) <-> constructible data.
Proof.
  split.
  - intros [b Hb]. pose proof (MobiBook_init_magic data b Hb) as Hm.
    apply MobiBook_init_inv in Hb as (n & secs & H).
    destruct H as (Hp & Hl & _ & Hlen & Hml & _ & Hmv & _ & Hef & _).
    rewrite (loadSection_zero data n secs Hp) in Hl.
    destruct (Z.eqb_spec n 0); [discriminate|]. injection Hl as Hr0.
    pose proof Hp as Hfit. apply parseSections_fits in Hfit as (Hn & Hfit & _).
    apply parseSections_iff in Hp as (Hc & _ & _).
    split; [exact Hm|]. exists n.
    split; [exact Hc|]. split; [lia|]. split; [exact Hfit|].
    rewrite Hr0. rewrite Hml, Hmv in Hef.
    eapply header_fits_of_reads; eassumption.
  - intros (Hm & n & Hc & Hn & Hfit & Hh).
    assert (Hp : parseSections data (py_slice data 0 78)
                 = Ok (n, section_at data <$> seqZ 0 n)).
    { apply parseSections_iff. auto. }
    destruct (MobiBook_init_ok data n _ (section0_of data n) Hm Hp)
      as (b & Hb & _); [|exact Hh|eauto].
    rewrite (loadSection_zero data n _ Hp).
    destruct (Z.eqb_spec n 0); [lia | reflexivity].
Qed.

(** X6. Construction raises only MobiException, struct.error or
    IndexError: MobiException exactly when the container tag does not
    match, IndexError exactly when the tag matches and the section count
    reads as 0, and struct.error in every other failing case. *)
Theorem X6_construction_errors (data : bytes) (e : exn) :
  __init__ data = Raise e ->
  (e = MobiException /\ doc_magic data <> BOOKMOBI)
  \/ (e = IndexError /\ doc_magic data = BOOKMOBI
      /\ doc_num_sections data = Ok 0)
  \/ (e = StructError /\ doc_magic data = BOOKMOBI
      /\ doc_num_sections data <> Ok 0).
Proof.
  unfold __init__. fold (doc_magic data).
  case_bool_decide as Hm; simpl negb; cbv iota.
  - intros H. right.
    step_bind H.
    + destruct a as [n secs]. pose proof E as Hp.
      apply parseSections_iff in Hp as (Hc & _ & _).
      rewrite (loadSection_zero data n secs E) in H.
      destruct (Z.eqb_spec n 0) as [->|Hn0]; cbn [mbind result_bind] in H.
      * injection H as <-. left. auto.
      * right. split; [|split; [exact Hm | congruence]].
        step_bind H; [|injection H as <-; eauto using unpack_H_raise].
        step_bind H; [|injection H as <-; eauto using unpack_H_raise].
        eauto using parseMobiHeader_raise.
    + injection H as <-. right.
      split; [eauto using parseSections_raise|]. split; [exact Hm|].
      intros Hc.
      assert (Hok : parseSections data (py_slice data 0 78) = Ok (0, [])).
      { unfold parseSections. fold (doc_num_sections data). rewrite Hc.
        reflexivity. }
      congruence.
  - intros [= <-]. left. auto.
Qed.

Lemma X6_witness :
  __init__ truncated_table_doc = Raise StructError
  /\ doc_magic truncated_table_doc = BOOKMOBI
  /\ doc_num_sections truncated_table_doc <> Ok 0.
Proof.
  assert (H : __init__ truncated_table_doc = Raise StructError)
    by (vm_compute; reflexivity).
  split; [exact H|].
  destruct (X6_construction_errors _ _ H) as [[He _]|[[He _]|(_ & Hm & Hc)]];
    [discriminate He | discriminate He | split; assumption].
Defined.

(** ** X7, X8: the constructed object *)

Lemma unpack_LLLL_inv s a b c d :
  unpack_LLLL s = Ok (a, b, c, d) ->
  len s = 16 /\ a = be_uint (take 4 s) /\ b = be_uint (take 4 (drop 4 s))
  /\ c = be_uint (take 4 (drop 8 s)) /\ d = be_uint (drop 12 s).
Proof.
  unfold unpack_LLLL. destruct (Z.eqb_spec (len s) 16); [|discriminate].
  intros [= <- <- <- <-]. auto.
Qed.

(** The attributes that [parseMobiHeader] assigns and those it leaves. *)
Lemma parseMobiHeader_fields self b :
  parseMobiHeader self = Ok b ->
  let r0 := record0 self in
  firstimg b = be_uint (py_slice r0 0x6C 0x70)
  /\ crypto_type b = be_uint (py_slice r0 0xC 0xE)
  /\ drm_ptr b = be_uint (py_slice r0 0xA8 0xAC)
  /\ drm_count b = be_uint (py_slice r0 0xAC 0xB0)
  /\ drm_size b = be_uint (py_slice r0 0xB0 0xB4)
  /\ data_file b = data_file self /\ magic b = magic self
  /\ num_sections b = num_sections self /\ sections b = sections self
  /\ compression b = compression self /\ txt_records b = txt_records self
  /\ print_replica b = print_replica self.
Proof.
  unfold parseMobiHeader. intros H. set (r0 := record0 self) in *.
  case_bind H. case_bind H. case_bind H.
  case_bind H. rename a2 into fi, E2 into Efi.
  case_bind H.
  case_bind H. rename a3 into ct, E3 into Ect.
  case_bind H. destruct a3 as [[[dp dc] ds] dr]. rename E3 into Edrm.
  case_bind H. injection H as <-. cbn.
  unfold unpack_from_L in Efi.
  destruct (len r0 - 108 <? 4); [discriminate|]. injection Efi as <-.
  apply unpack_H_inv in Ect as [_ ->].
  apply unpack_LLLL_inv in Edrm as (Hl & -> & -> & -> & _).
  assert (0xB8 <= len r0).
  { destruct (Z.le_gt_cases 0xB8 (len r0)); [done|].
    pose proof (len_py_slice_short r0 168 (168 + 16)). lia. }
  change 8%nat with (Z.to_nat 8). change 4%nat with (Z.to_nat 4).
  rewrite !drop_py_slice by lia. rewrite !take_py_slice by lia.
  repeat split; reflexivity.
Qed.

(** X7. In every constructed object the header attributes are the
    big-endian values at their fixed offsets of section 0: [compression]
    at 0, [txt_records] at 8, [crypto_type] at 0xC, [mobi_length] at 0x14,
    [mobi_codepage] at 0x1C, [mobi_version] at 0x68, [firstimg] at 0x6C
    and the DRM pointer, count and size at 0xA8, 0xAC and 0xB0; and
    [exth_off] is [mobi_length + 16].  In particular [firstimg] is the
    header field, not the [txt_records + 1] assigned first. *)
Theorem X7_header_fields (data : bytes) (b : MobiBook) :
  __init__ data = Ok b ->
  let r0 := record0 b in
  compression b = be_uint (py_slice r0 0x0 0x2)
  /\ txt_records b = be_uint (py_slice r0 0x8 0xA)
  /\ crypto_type b = be_uint (py_slice r0 0xC 0xE)
  /\ mobi_length b = be_uint (py_slice r0 0x14 0x18)
  /\ mobi_codepage b = be_uint (py_slice r0 0x1C 0x20)
  /\ mobi_version b = be_uint (py_slice r0 0x68 0x6C)
  /\ firstimg b = be_uint (py_slice r0 0x6C 0x70)
  /\ drm_ptr b = be_uint (py_slice r0 0xA8 0xAC)
  /\ drm_count b = be_uint (py_slice r0 0xAC 0xB0)
  /\ drm_size b = be_uint (py_slice r0 0xB0 0xB4)
  /\ exth_off b = mobi_length b + 16.
Proof.
  intros Hb r0. pose proof Hb as Hinv.
  apply MobiBook_init_inv in Hinv as (n & secs & H).
  destruct H as (_ & _ & _ & _ & Hml & Hcp & Hmv & Hoff & _).
  unfold __init__ in Hb. case_bool_decide; [|discriminate].
  simpl negb in Hb. cbv iota in Hb.
  case_bind Hb. destruct a as [n' secs'].
  case_bind Hb. case_bind Hb. case_bind Hb.
  pose proof Hb as Hr. apply parseMobiHeader_inv in Hr as (Hr & _).
  cbn [record0] in Hr.
  apply parseMobiHeader_fields in Hb. cbn in Hb.
  destruct Hb as (Hfi & Hct & Hdp & Hdc & Hds & _ & _ & _ & _ & Hco & Htx & _).
  apply unpack_H_inv in E1 as [_ E1]. apply unpack_H_inv in E2 as [_ E2].
  unfold r0. rewrite Hr in *.
  change (0 + 2) with 2 in E1. change (8 + 2) with 10 in E2. subst a0 a1.
  repeat split; assumption.
Qed.

Lemma X7_witness :
  exists b, __init__ short_header_doc = Ok b
    /\ mobi_length b = 0xE0 /\ mobi_version b = 6
    /\ firstimg b = 0 /\ txt_records b = 0 /\ exth_off b = 0xF0.
Proof.
  assert (E : exists b, __init__ short_header_doc = Ok b
                /\ be_uint (py_slice (record0 b) 0x14 0x18) = 0xE0
                /\ be_uint (py_slice (record0 b) 0x68 0x6C) = 6
                /\ be_uint (py_slice (record0 b) 0x6C 0x70) = 0
                /\ be_uint (py_slice (record0 b) 0x8 0xA) = 0).
  { vm_compute. eexists. split; [reflexivity|]. repeat split. }
  destruct E as (b & Hb & H1 & H2 & H3 & H4). exists b.
  destruct (X7_header_fields _ b Hb)
    as (_ & Htx & _ & Hml & _ & Hmv & Hfi & _ & _ & _ & Hoff).
  split; [exact Hb|]. rewrite Hoff, Hml, Hmv, Hfi, Htx, H1, H2, H3, H4.
  repeat split.
Defined.

(** X8. Every constructed object keeps these relations: [data_file] is the
    input and [header] its first 78 bytes, [magic] is the container tag,
    [num_sections] is the length of [sections], lies between 1 and 65535,
    and [sections] is the table read from the input, [record0] is section
    0 of that table and holds at least 0xB8 bytes, [print_replica] is
    False, and the attributes read as unsigned fields are in range, so
    that the provisional -1 of [crypto_type] and [mobi_version] is never
    seen. *)
Theorem X8_object_invariants (data : bytes) (b : MobiBook) :
  __init__ data = Ok b ->
  data_file b = data
  /\ header b = py_slice data 0 78 /\ len (header b) = 78
  /\ magic b = BOOKMOBI
  /\ num_sections b = len (sections b) /\ 1 <= num_sections b < 65536
  /\ sections b = section_at data <$> seqZ 0 (num_sections b)
  /\ record0 b = section0_of data (num_sections b)
  /\ 0xB8 <= len (record0 b)
  /\ print_replica b = false
  /\ 0 <= crypto_type b < 2 ^ 16 /\ 0 <= mobi_version b < 2 ^ 32
  /\ 0 <= mobi_length b < 2 ^ 32 /\ 0 <= mobi_codepage b < 2 ^ 32
  /\ 0 <= extra_data_flags b < 2 ^ 16.
Proof.
  intros Hb. pose proof (MobiBook_init_magic data b Hb) as Hm.
  pose proof Hb as Hinv.
  apply MobiBook_init_inv in Hinv as (n & secs & H).
  destruct H as (Hp & Hl & Hh & Hlen & Hml & Hcp & Hmv & _ & Hef & _).
  unfold __init__ in Hb. case_bool_decide; [|discriminate].
  simpl negb in Hb. cbv iota in Hb.
  case_bind Hb. destruct a as [n' secs'].
  assert (n' = n /\ secs' = secs) as [-> ->] by (split; congruence).
  case_bind Hb. case_bind Hb. case_bind Hb.
  apply parseMobiHeader_fields in Hb. cbn in Hb.
  destruct Hb as (_ & Hct & _ & _ & _ & Hdf & Hmg & Hns & Hss & _ & _ & Hpr).
  clear Hp. rename E into Hp. injection Hl as ->.
  rename E0 into Hl.
  rewrite (loadSection_zero data n secs Hp) in Hl.
  destruct (Z.eqb_spec n 0) as [|Hn0]; [discriminate|]. injection Hl as Hr0.
  pose proof Hp as Hfit. apply parseSections_fits in Hfit as (Hn & Hfit & Hsecs).
  pose proof Hp as Hinv. apply parseSections_inv in Hinv as (Hc & Hls & _).
  assert (Hn16 : n < 65536).
  { apply unpack_H_inv in Hc as [Hl2 ->].
    pose proof (be_uint_bound (py_slice (py_slice data 0 78) 76 78)) as Hbd.
    rewrite Hl2 in Hbd. exact Hbd. }
  assert (H78 : 78 <= len data) by lia.
  pose proof (be_uint_slice_range (record0 b) 0xC 0xE) as R1.
  pose proof (be_uint_slice_range (record0 b) 0x68 0x6C) as R2.
  pose proof (be_uint_slice_range (record0 b) 0x14 0x18) as R3.
  pose proof (be_uint_slice_range (record0 b) 0x1c 0x20) as R4.
  split; [exact Hdf|]. split; [exact Hh|].
  split; [rewrite Hh; apply len_py_slice_exact; lia|].
  split; [rewrite Hmg; exact H|].
  split; [rewrite Hns, Hss; symmetry; exact Hls|].
  split; [rewrite Hns; lia|].
  split; [rewrite Hns, Hss; exact Hsecs|].
  split; [rewrite Hns; symmetry; exact Hr0|].
  split; [exact Hlen|]. split; [exact Hpr|].
  split; [rewrite Hct; apply R1; lia|].
  split; [rewrite Hmv; apply R2; lia|].
  split; [rewrite Hml; apply R3; lia|].
  split; [rewrite Hcp; apply R4; lia|].
  unfold read_extra_data_flags in Hef.
  destruct ((228 <=? mobi_length b) && (5 <=? mobi_version b)).
  - apply unpack_H_inv in Hef as [Hl2 ->]. split; [apply be_uint_nonneg|].
    pose proof (be_uint_bound (py_slice (record0 b) 242 244)) as Hbd.
    rewrite Hl2 in Hbd. exact Hbd.
  - injection Hef as <-. lia.
Qed.

Lemma X8_witness :
  exists b, __init__ far_section_doc = Ok b
    /\ num_sections b = 2 /\ len (record0 b) = 248
    /\ 0 <= crypto_type b.
Proof.
  assert (E : exists b, __init__ far_section_doc = Ok b
                /\ num_sections b = 2 /\ len (record0 b) = 248).
  { vm_compute. eexists. split; [reflexivity|]. split; reflexivity. }
  destruct E as (b & Hb & Hn & Hl). exists b.
  split; [exact Hb|]. split; [exact Hn|]. split; [exact Hl|].
  destruct (X8_object_invariants _ b Hb)
    as (_ & _ & _ & _ & _ & _ & _ & _ & _ & _ & [Hc _] & _).
  exact Hc.
Defined.

(** ** X9: documents without the EXTH flag *)

(** X9. When bit 0x40 of the flag word at 0x80 of section 0 is clear,
    [processEXTH] is not called: the constructed object has an empty index
    and every name of the name table reads as the empty string, whatever
    section 0 holds at the EXTH offset. *)
Theorem X9_no_flag_no_metadata (data : bytes) (b : MobiBook) :
  __init__ data = Ok b ->
  Z.land (be_uint (py_slice (record0 b) 0x80 0x84)) 0x40 = 0 ->
  meta_array b = ∅
  /\ forall name tag, EXTH_RMAP_STRINGS !! name = Some tag ->
       __getattr__ b name = Ok [].
Proof.
  intros Hb Hflag. apply MobiBook_init_inv in Hb as (n & secs & H).
  destruct H as (_ & _ & _ & _ & _ & _ & _ & _ & _ & Hmeta).
  assert (Hm : meta_array b = ∅).
  { rewrite Hmeta. unfold parse_exth_if_flagged. rewrite Hflag. reflexivity. }
  split; [exact Hm|]. intros name tag Hn.
  apply (getattr_no_record b name tag Hn). rewrite Hm. apply lookup_empty.
Qed.

Lemma X9_witness :
  exists b, __init__ unflagged_exth_doc = Ok b
    /\ exth_found (py_slice_from (record0 b) (exth_off b)) = true
    /\ meta_array b = ∅
    /\ __getattr__ b "creator" = Ok [].
Proof.
  assert (E : exists b, __init__ unflagged_exth_doc = Ok b
                /\ exth_found (py_slice_from (record0 b) (exth_off b)) = true
                /\ Z.land (be_uint (py_slice (record0 b) 0x80 0x84)) 0x40 = 0).
  { vm_compute. eexists. split; [reflexivity|]. split; reflexivity. }
  destruct E as (b & Hb & Hf & Hflag). exists b.
  destruct (X9_no_flag_no_metadata _ b Hb Hflag) as [Hm Hget].
  split; [exact Hb|]. split; [exact Hf|]. split; [exact Hm|].
  apply (Hget "creator"%string 100). vm_compute. reflexivity.
Defined.

(** ** X10: duplicate tags *)

(** The walk over a well-formed block, for any callback. *)
Lemma processEXTH_well_formed {S} (cb : Z -> Z -> bytes -> S -> S)
    (r0 : bytes) (off : Z) (pre rest : bytes) (recs : list exth_rec) (s : S) :
  py_slice_from r0 off = pre ++ concat (map rec_bytes recs) ++ rest ->
  len pre = 12 -> take 4 pre = EXTH_tag ->
  be_uint (drop 8 pre) = len recs ->
  forallb rec_wf recs = true ->
  processEXTH r0 off cb s = (run_calls cb (exth_items 12 recs) s, RetTrue).
Proof.
  intros Hexth Hpre Htag Hn Hwf. set (exth := py_slice_from r0 off) in *.
  assert (Hfound : exth_found exth = true).
  { unfold exth_found. rewrite Hexth, len_app.
    pose proof (len_nonneg (concat (map rec_bytes recs) ++ rest)).
    destruct (Z.ltb_spec (len pre + len (concat (map rec_bytes recs) ++ rest)) 12);
      [lia|].
    rewrite py_slice_app_l by lia.
    rewrite py_slice_take_drop by lia. change (take 4 pre = EXTH_tag) in Htag.
    change (Z.to_nat (4 - 0)) with 4%nat. change (Z.to_nat 0) with 0%nat.
    rewrite drop_0, bool_decide_eq_true_2 by exact Htag. reflexivity. }
  assert (Hcount : be_uint (py_slice exth 8 12) = len recs).
  { rewrite Hexth, py_slice_app_l by lia.
    rewrite py_slice_take_drop by lia.
    rewrite take_ge by (rewrite length_drop; unfold len in Hpre; lia).
    exact Hn. }
  rewrite processEXTH_found by exact Hfound. fold exth.
  rewrite Hcount. unfold len at 1. rewrite Nat2Z.id.
  rewrite Hexth, <- Hpre, exth_loop_well_formed by exact Hwf. reflexivity.
Qed.

Lemma exth_items_app recs1 : forall pos recs2,
  exth_items pos (recs1 ++ recs2)
  = exth_items pos recs1 ++ exth_items (pos + sum_sizes recs1) recs2.
Proof.
  induction recs1 as [|r recs1 IH]; intros pos recs2; simpl.
  - rewrite Z.add_0_r. reflexivity.
  - rewrite IH. fold (sum_sizes recs1). do 3 f_equal. lia.
Qed.

Lemma run_calls_app {S} (cb : Z -> Z -> bytes -> S -> S) items1 items2 s :
  run_calls cb (items1 ++ items2) s
  = run_calls cb items2 (run_calls cb items1 s).
Proof. unfold run_calls. apply fold_left_app. Qed.

(** Records of other tags leave the entry of [t] as it is. *)
Lemma store_other_tags t recs : forall pos (m : gmap Z bytes),
  Forall (fun r => rec_tag r <> t) recs ->
  run_calls storeEXTH (exth_items pos recs) m !! t = m !! t.
Proof.
  induction recs as [|r recs IH]; intros pos m Hall; [reflexivity|].
  apply Forall_cons in Hall as [Hr Hall].
  cbn [exth_items]. unfold run_calls in *. cbn [fold_left fst snd].
  rewrite IH by exact Hall. unfold storeEXTH.
  apply lookup_insert_ne. exact Hr.
Qed.

(** X10. In an object constructed from a document whose flag bit 0x40 is
    set and whose EXTH block is well formed, the index holds under each
    tag the payload of the last record of that tag, and holds nothing
    under a tag that no record carries. *)
Theorem X10_last_record_wins (data : bytes) (b : MobiBook)
    (pre rest : bytes) (recs : list exth_rec) :
  __init__ data = Ok b ->
  Z.land (be_uint (py_slice (record0 b) 0x80 0x84)) 0x40 <> 0 ->
  py_slice_from (record0 b) (exth_off b)
    = pre ++ concat (map rec_bytes recs) ++ rest ->
  len pre = 12 -> take 4 pre = EXTH_tag ->
  be_uint (drop 8 pre) = len recs ->
  forallb rec_wf recs = true ->
  forall t,
    (Forall (fun r => rec_tag r <> t) recs -> meta_array b !! t = None)
    /\ (forall l1 r l2, recs = l1 ++ r :: l2 -> rec_tag r = t ->
          Forall (fun r' => rec_tag r' <> t) l2 ->
          meta_array b !! t = Some r.2).
Proof.
  intros Hb Hflag Hexth Hpre Htag Hn Hwf t.
  apply MobiBook_init_inv in Hb as (n & secs & H).
  destruct H as (_ & _ & _ & _ & _ & _ & _ & Hoff & _ & Hmeta).
  assert (Hm : meta_array b = run_calls storeEXTH (exth_items 12 recs) ∅).
  { rewrite Hmeta. unfold parse_exth_if_flagged.
    destruct (Z.eqb_spec (Z.land (be_uint (py_slice (record0 b) 128 132)) 64) 0);
      [done|]. simpl negb. cbv iota.
    rewrite <- Hoff.
    rewrite (processEXTH_well_formed storeEXTH _ _ pre rest recs)
      by assumption.
    reflexivity. }
  rewrite Hm. split.
  - intros Hall. rewrite store_other_tags by exact Hall. apply lookup_empty.
  - intros l1 r l2 -> Hr Hall.
    rewrite exth_items_app, run_calls_app. cbn [exth_items].
    unfold run_calls at 1. cbn [fold_left fst snd].
    fold (run_calls storeEXTH
            (exth_items (12 + sum_sizes l1 + rec_size r) l2)
            (storeEXTH (rec_tag r) (12 + sum_sizes l1) r.2
               (run_calls storeEXTH (exth_items 12 l1) ∅))).
    rewrite store_other_tags by exact Hall. rewrite Hr. unfold storeEXTH.
    apply lookup_insert_eq.
Qed.

Lemma X10_witness :
  exists b, __init__ twice_creator_doc = Ok b
    /\ meta_array b !! 100 = Some (bytes_of_string "Bob")
    /\ meta_array b !! 101 = None.
Proof.
  assert (E : exists b, __init__ twice_creator_doc = Ok b
       /\ Z.land (be_uint (py_slice (record0 b) 0x80 0x84)) 0x40 <> 0
       /\ py_slice_from (record0 b) (exth_off b)
          = take 12 (exth_block 2 (zeros 22))
            ++ concat (map rec_bytes
                 [(be_bytes 4 100 ++ be_bytes 4 11, bytes_of_string "Ann");
                  (be_bytes 4 100 ++ be_bytes 4 11, bytes_of_string "Bob")])
            ++ []).
  { vm_compute. eexists. split; [reflexivity|]. split; [discriminate|].
    reflexivity. }
  destruct E as (b & Hb & Hflag & Hexth). exists b.
  split; [exact Hb|].
  assert (Hwf : forallb rec_wf
            [(be_bytes 4 100 ++ be_bytes 4 11, bytes_of_string "Ann");
             (be_bytes 4 100 ++ be_bytes 4 11, bytes_of_string "Bob")] = true)
    by (vm_compute; reflexivity).
  pose proof (X10_last_record_wins _ b _ _ _ Hb Hflag Hexth
                eq_refl eq_refl eq_refl Hwf) as H.
  split.
  - apply (proj2 (H 100)
             [(be_bytes 4 100 ++ be_bytes 4 11, bytes_of_string "Ann")]
             (be_bytes 4 100 ++ be_bytes 4 11, bytes_of_string "Bob") []);
      [reflexivity | vm_compute; reflexivity | constructor].
  - apply (proj1 (H 101)). repeat constructor; vm_compute; discriminate.
Defined.

(** ** X11, X12, X13: the result and the calls of [processEXTH] *)

(** X11. [processEXTH] returns None exactly when the block is not found
    (fewer than 12 bytes at the EXTH offset, or no "EXTH" tag), and the
    callback is then never called; it returns True exactly when the block
    is found and every header read of the walk finds 8 bytes, and False
    exactly when the block is found and some header read does not.  The
    callback is called at most [nitems] times. *)
Theorem X11_processEXTH_result (r0 : bytes) (off : Z) :
  let exth := py_slice_from r0 off in
  let nitems := be_uint (py_slice exth 8 12) in
  (forall (S : Type) (cb : Z -> Z -> bytes -> S -> S) (s : S),
     ((processEXTH r0 off cb s).2 = RetNone <-> exth_found exth = false)
     /\ ((processEXTH r0 off cb s).2 = RetTrue
         <-> exth_found exth = true
             /\ headers_readable exth (Z.to_nat nitems) 12 = true)
     /\ ((processEXTH r0 off cb s).2 = RetFalse
         <-> exth_found exth = true
             /\ headers_readable exth (Z.to_nat nitems) 12 = false)
     /\ (exth_found exth = false -> (processEXTH r0 off cb s).1 = s))
  /\ len (processEXTH r0 off log_callback []).1 <= nitems.
Proof.
  intros exth nitems.
  pose proof (be_uint_nonneg (py_slice exth 8 12)) as Hnn. fold nitems in Hnn.
  split.
  - intros S cb s. destruct (exth_found exth) eqn:Ef.
    + rewrite processEXTH_found by exact Ef. fold exth. fold nitems.
      destruct (headers_readable exth (Z.to_nat nitems) 12) eqn:Hr.
      * destruct (exth_loop_readable cb exth _ 12 s Hr) as (s' & p & ->).
        cbn. repeat split; intros; try discriminate; try tauto.
        destruct H; discriminate.
      * destruct (exth_loop_unreadable cb exth _ 12 s Hr) as (s' & ->).
        cbn. repeat split; intros; try discriminate; try tauto.
        destruct H; discriminate.
    + rewrite processEXTH_not_found by exact Ef. cbn.
      repeat split; intros; try discriminate; try tauto;
        destruct H; discriminate.
  - destruct (exth_found exth) eqn:Ef.
    + rewrite processEXTH_found by exact Ef. fold exth. fold nitems.
      destruct (exth_loop log_callback exth (Z.to_nat nitems) 12 [])
        as [log r] eqn:E.
      apply exth_loop_log_length in E as [E _]. cbn. unfold len.
      simpl in E. lia.
    + rewrite processEXTH_not_found by exact Ef. cbn.
      change (len []) with 0. lia.
Qed.

Lemma py_slice_beyond {A} (l : list A) (a b : Z) :
  0 <= a -> 0 <= b -> len l <= a -> py_slice l a b = [].
Proof.
  intros Ha Hb Hl. rewrite py_slice_take_drop by lia.
  rewrite drop_ge by (unfold len in Hl; lia). apply take_nil.
Qed.

(** X12. A record whose declared size runs past the end of the slice
    raises nothing by itself: the callback receives all the bytes that
    remain after the header, which are fewer than [size - 8].  When that
    record is the last one declared the walk completes; otherwise the next
    header read fails with struct.error. *)
Theorem X12_overrunning_record_truncated (S : Type)
    (cb : Z -> Z -> bytes -> S -> S) (exth : bytes) (k : nat) (pos : Z)
    (s : S) (tag size : Z) :
  0 <= pos ->
  unpack_II (py_slice exth pos (pos + 8)) = Ok (tag, size) ->
  len exth < pos + size ->
  exth_loop cb exth (Datatypes.S k) pos s
  = (cb tag pos (py_slice_from exth (pos + 8)) s,
     match k with O => Ok (pos + size) | _ => Raise StructError end)
  /\ len (py_slice_from exth (pos + 8)) = len exth - (pos + 8)
  /\ len (py_slice_from exth (pos + 8)) < size - 8.
Proof.
  intros Hpos Hhdr Hover.
  assert (Hfit : pos + 8 <= len exth).
  { apply unpack_II_inv in Hhdr as (Hl & _).
    destruct (Z.le_gt_cases (pos + 8) (len exth)); [done|].
    pose proof (len_py_slice_short exth pos (pos + 8)). lia. }
  assert (Hcontent : py_slice exth (pos + 8) (pos + size)
                     = py_slice_from exth (pos + 8)).
  { rewrite py_slice_take_drop by lia.
    unfold py_slice_from, slice_bound.
    destruct (Z.ltb_spec (pos + 8) 0); [lia|].
    rewrite Z.min_l, Z.max_r by lia.
    apply take_ge. rewrite length_drop. unfold len in *. lia. }
  assert (Hlen : len (py_slice_from exth (pos + 8)) = len exth - (pos + 8)).
  { unfold py_slice_from, slice_bound.
    destruct (Z.ltb_spec (pos + 8) 0); [lia|].
    rewrite Z.min_l, Z.max_r by lia.
    unfold len. rewrite length_drop. unfold len in Hfit. lia. }
  split; [|split; [exact Hlen | lia]].
  cbn [exth_loop]. rewrite Hhdr, Hcontent.
  destruct k as [|k]; [reflexivity|].
  cbn [exth_loop].
  rewrite (py_slice_beyond exth (pos + size) (pos + size + 8)) by lia.
  reflexivity.
Qed.

Lemma X12_witness :
  exth_loop storeEXTH overrun_exth 1 12 ∅
  = (storeEXTH 100 12 (bytes_of_string "abc") ∅, Ok 112)
  /\ len (py_slice_from overrun_exth (12 + 8)) < 100 - 8.
Proof.
  assert (Hh : unpack_II (py_slice overrun_exth 12 (12 + 8)) = Ok (100, 100))
    by (vm_compute; reflexivity).
  assert (Ho : len overrun_exth < 12 + 100) by (vm_compute; reflexivity).
  assert (Hp : 0 <= 12) by lia.
  destruct (X12_overrunning_record_truncated _ storeEXTH overrun_exth 0 12 ∅
              100 100 Hp Hh Ho) as (Hloop & _ & Hlt).
  split; [exact Hloop | exact Hlt].
Defined.

(** The calls that the walk makes are fixed by the bytes alone: a walk
    with any callback is the walk that only records its calls, followed by
    the callback on each recorded call. *)
Lemma exth_loop_log_acc exth k : forall pos acc,
  exth_loop log_callback exth k pos acc
  = (acc ++ (exth_loop log_callback exth k pos []).1,
     (exth_loop log_callback exth k pos []).2).
Proof.
  induction k as [|k IH]; intros pos acc.
  - simpl. rewrite app_nil_r. reflexivity.
  - cbn [exth_loop]. destruct (unpack_II _) as [[tag size]|e].
    + rewrite (IH _ (log_callback _ _ _ acc)).
      rewrite (IH _ (log_callback _ _ _ [])).
      unfold log_callback. cbn [fst snd app].
      rewrite <- app_assoc. reflexivity.
    + cbn. rewrite app_nil_r. reflexivity.
Qed.

Lemma exth_loop_factor {S} (cb : Z -> Z -> bytes -> S -> S) exth k :
  forall pos s,
    exth_loop cb exth k pos s
    = (run_calls cb (exth_loop log_callback exth k pos []).1 s,
       (exth_loop log_callback exth k pos []).2).
Proof.
  induction k as [|k IH]; intros pos s; [reflexivity|].
  cbn [exth_loop]. destruct (unpack_II _) as [[tag size]|e]; [|reflexivity].
  rewrite IH, (exth_loop_log_acc exth k _ (log_callback _ _ _ [])).
  unfold log_callback. cbn [fst snd app]. reflexivity.
Qed.

Lemma exth_loop_positions exth k : forall pos,
  let log := (exth_loop log_callback exth k pos []).1 in
  Forall (fun it => pos <= it.1.2) log
  /\ StronglySorted Z.le ((fun it => it.1.2) <$> log).
Proof.
  induction k as [|k IH]; intros pos; [split; constructor|].
  cbn [exth_loop].
  destruct (unpack_II _) as [[tag size]|e] eqn:E; [|split; constructor].
  apply unpack_II_inv in E as (_ & _ & Hsize).
  pose proof (be_uint_nonneg (drop 4 (py_slice exth pos (pos + 8)))) as Hnn.
  rewrite <- Hsize in Hnn.
  rewrite (exth_loop_log_acc exth k _ (log_callback _ _ _ [])).
  unfold log_callback. cbn [fst snd app].
  destruct (IH (pos + size)) as [Hall Hsorted].
  assert (Hall' : Forall (fun it => pos <= it.1.2)
                    (exth_loop log_callback exth k (pos + size) []).1).
  { eapply Forall_impl; [exact Hall|]. cbn. intros it Hit. lia. }
  split.
  - constructor; [cbn; lia | exact Hall'].
  - cbn [fmap list_fmap]. constructor; [exact Hsorted|].
    apply Forall_fmap. exact Hall'.
Qed.

(** X13. The calls of [processEXTH] depend on the bytes only: for every
    callback and state, the result is the result of the call-recording
    walk and the state is the callback folded over the recorded calls, in
    order.  The recorded positions start at 12 or later and never
    decrease. *)
Theorem X13_calls_fixed_by_bytes (r0 : bytes) (off : Z) :
  let log := (processEXTH r0 off log_callback []).1 in
  (forall (S : Type) (cb : Z -> Z -> bytes -> S -> S) (s : S),
     processEXTH r0 off cb s
     = (run_calls cb log s, (processEXTH r0 off log_callback []).2))
  /\ Forall (fun it => 12 <= it.1.2) log
  /\ StronglySorted Z.le ((fun it => it.1.2) <$> log).
Proof.
  intros log. unfold log. clear log.
  destruct (exth_found (py_slice_from r0 off)) eqn:Ef.
  - set (exth := py_slice_from r0 off) in *.
    set (k := Z.to_nat (be_uint (py_slice exth 8 12))).
    assert (Hlog : processEXTH r0 off log_callback []
              = ((exth_loop log_callback exth k 12 []).1,
                 match (exth_loop log_callback exth k 12 []).2 with
                 | Ok _ => RetTrue | Raise _ => RetFalse end)).
    { rewrite processEXTH_found by exact Ef. fold exth. fold k.
      destruct (exth_loop log_callback exth k 12 []) as [l r]. reflexivity. }
    rewrite Hlog. cbn [fst snd]. split.
    + intros S cb s. rewrite processEXTH_found by exact Ef.
      fold exth. fold k. rewrite exth_loop_factor. reflexivity.
    + apply exth_loop_positions.
  - rewrite (processEXTH_not_found log_callback) by exact Ef. cbn [fst snd].
    split; [|split; constructor].
    intros S cb s. apply processEXTH_not_found. exact Ef.
Qed.

(** ** X14, X15, X16, X17: field lookup and title *)

Lemma cp1252_decode_raise s e :
  cp1252_decode s = Raise e -> e = UnicodeDecodeError.
Proof.
  induction s as [|b s IH]; simpl; [discriminate|].
  destruct (cp1252_char _); [|congruence].
  destruct (cp1252_decode s); simpl; [discriminate|].
  intros [= <-]. auto.
Qed.

Lemma utf8_decode_raise s : forall e,
  utf8_decode s = Raise e -> e = UnicodeDecodeError.
Proof.
  remember (List.length s) as n eqn:Hn. revert s Hn.
  induction n as [n IH] using lt_wf_ind. intros s Hn e H.
  assert (Htail : forall t, (List.length t < n)%nat ->
            forall e', utf8_decode t = Raise e' -> e' = UnicodeDecodeError)
    by (intros t Ht; exact (IH _ Ht t eq_refl)).
  clear IH. destruct s as [|b0 s1]; [discriminate|].
  cbn [utf8_decode] in H. cbn [List.length] in Hn.
  repeat match type of H with
         | (if ?c then _ else _) = _ => destruct c
         | match ?l with [] => _ | _ :: _ => _ end = _ =>
             destruct l; cbn [List.length] in Hn
         | mbind _ (utf8_decode ?t) = _ =>
             let E := fresh "E" in
             destruct (utf8_decode t) eqn:E; cbn [mbind result_bind] in H;
             [discriminate H
             | injection H as <-; apply (Htail t); [lia | exact E]]
         | Raise _ = Raise _ => injection H as <-; reflexivity
         end.
Qed.

Lemma decode_raise enc s e : decode enc s = Raise e -> e = UnicodeDecodeError.
Proof.
  destruct enc; [apply cp1252_decode_raise | apply utf8_decode_raise].
Qed.

(** X14. [__getattr__] raises AttributeError exactly for the names that
    are not keys of the reverse name table.  For a key, a failure is a
    struct.error when the tag is one of the numeric tags 116, 201 and 406
    (and the stored value is then not empty), and a UnicodeDecodeError for
    every other tag; a numeric field never fails to decode. *)
Theorem X14_getattr_errors (b : MobiBook) (name : string) :
  (EXTH_RMAP_STRINGS !! name = None ->
     __getattr__ b name = Raise AttributeError)
  /\ (forall tag e,
        EXTH_RMAP_STRINGS !! name = Some tag ->
        __getattr__ b name = Raise e ->
        ((tag = 116 \/ tag = 201 \/ tag = 406)
         /\ e = StructError /\ meta_array b !! tag <> None
         /\ meta_array b !! tag <> Some [])
        \/ (tag <> 116 /\ tag <> 201 /\ tag <> 406
            /\ e = UnicodeDecodeError)).
Proof.
  split.
  - intros Hn. unfold __getattr__. rewrite Hn. reflexivity.
  - intros tag e Hn H. unfold __getattr__ in H. rewrite Hn in H.
    unfold EXTH_MAP_CONVERSIONS in H.
    assert (Hnum : forall fmt,
      (if nonempty (default [] (meta_array b !! tag))
       then n ← unpack_conversion fmt (default [] (meta_array b !! tag));
            Ok (str_of_int n)
       else Ok (default [] (meta_array b !! tag)))
      ≫= (fun v => decode (CODEPAGE_MAP_get (mobi_codepage b)) v) = Raise e ->
      e = StructError /\ meta_array b !! tag <> None
      /\ meta_array b !! tag <> Some []).
    { intros fmt Hf.
      assert (Hv : default [] (meta_array b !! tag) <> [] ->
                meta_array b !! tag <> None /\ meta_array b !! tag <> Some []).
      { destruct (meta_array b !! tag) as [[|c v]|]; cbn; intros Hv;
          split; congruence. }
      destruct (default [] (meta_array b !! tag)) as [|c v].
      - cbn [nonempty mbind result_bind] in Hf. rewrite decode_nil in Hf.
        discriminate.
      - cbn [nonempty] in Hf.
        destruct (unpack_conversion fmt (c :: v)) as [n|e'] eqn:Eu;
          cbn [mbind result_bind] in Hf.
        + rewrite decode_ascii in Hf by apply str_of_int_ascii. discriminate.
        + injection Hf as <-. split; [|apply Hv; discriminate].
          destruct fmt; [eapply unpack_L_raise | eapply unpack_Q_raise];
            exact Eu. }
    destruct (Z.eqb_spec tag 116); [left; split; [auto | eapply Hnum; exact H]|].
    destruct (Z.eqb_spec tag 201); [left; split; [auto | eapply Hnum; exact H]|].
    destruct (Z.eqb_spec tag 406); [left; split; [auto | eapply Hnum; exact H]|].
    right. cbn [mbind result_bind] in H. apply decode_raise in H. auto.
Qed.

(** X15. The reverse name table is the exact inverse of the name table
    under lower-casing: a name is a key with tag [tag] exactly when it is
    the lower-cased name that EXTH_MAP_STRINGS gives to [tag].  No entry is
    lost to a collision of lower-cased names, and a name with an upper-case
    letter is never a key. *)
Theorem X15_reverse_table (name : string) (tag : Z) :
  EXTH_RMAP_STRINGS !! name = Some tag
  <-> exists n, In (tag, n) EXTH_MAP_STRINGS /\ name = lower n.
Proof.
  assert (Hmap : EXTH_RMAP_STRINGS
                 = list_to_map ((fun kv : Z * string => (lower kv.2, kv.1))
                                  <$> EXTH_MAP_STRINGS))
    by (vm_compute; reflexivity).
  assert (Hnodup : NoDup (((fun kv : Z * string => (lower kv.2, kv.1))
                             <$> EXTH_MAP_STRINGS).*1)).
  { apply (bool_decide_unpack _). vm_compute. exact I. }
  rewrite Hmap, <- elem_of_list_to_map by exact Hnodup.
  rewrite list_elem_of_fmap. split.
  - intros [[t n] [[= -> ->] Hin]]. exists n. split; [|reflexivity].
    apply list_elem_of_In. exact Hin.
  - intros (n & Hin & ->). exists (tag, n). split; [reflexivity|].
    apply list_elem_of_In. exact Hin.
Qed.

(** X16. On a constructed object the [title] property can fail only with
    a UnicodeDecodeError: the pair at 0x54 is always readable and
    'updatedtitle' is always a key. *)
Theorem X16_title_errors (data : bytes) (b : MobiBook) (e : exn) :
  __init__ data = Ok b -> title b = Raise e -> e = UnicodeDecodeError.
Proof.
  intros Hb H. apply MobiBook_init_inv in Hb as (n & secs & Hinv).
  destruct Hinv as (_ & _ & _ & Hlen & _).
  unfold title in H.
  assert (Hget : __getattr__ b "updatedtitle"
                 = decode (CODEPAGE_MAP_get (mobi_codepage b))
                     (default [] (meta_array b !! 503))) by reflexivity.
  rewrite Hget in H.
  step_bind H; [|injection H as <-; eauto using decode_raise].
  assert (Hpair : unpack_II (py_slice (record0 b) 0x54 0x5c)
                  = Ok (be_uint (take 4 (py_slice (record0 b) 0x54 0x5c)),
                        be_uint (drop 4 (py_slice (record0 b) 0x54 0x5c)))).
  { unfold unpack_II.
    rewrite (len_py_slice_exact (record0 b) 0x54 0x5c) by lia. reflexivity. }
  rewrite Hpair in H. cbn [mbind result_bind] in H.
  destruct (negb (nonempty a)).
  - step_bind H; [|injection H as <-; eauto using decode_raise].
    destruct (negb (nonempty (strip is_space_unicode a0)));
      [eauto using decode_raise | discriminate].
  - cbn [mbind result_bind] in H.
    destruct (negb (nonempty (strip is_space_unicode a)));
      [eauto using decode_raise | discriminate].
Qed.

Lemma X16_witness :
  exists b, __init__ bad_utf8_title_doc = Ok b
    /\ title b = Raise UnicodeDecodeError.
Proof.
  assert (E : exists b, __init__ bad_utf8_title_doc = Ok b
                /\ exists e, title b = Raise e).
  { vm_compute. eexists. split; [reflexivity|]. eexists. reflexivity. }
  destruct E as (b & Hb & e & He). exists b. split; [exact Hb|].
  rewrite He. f_equal. exact (X16_title_errors _ b e Hb He).
Defined.

(** X17. A field whose tag has no numeric conversion and whose stored
    bytes are all below 0x80 reads as the same characters whatever
    [mobi_codepage] is: for ASCII metadata the codepage makes no
    difference. *)
Theorem X17_ascii_field_any_codepage (b : MobiBook) (name : string)
    (tag : Z) (v : bytes) :
  EXTH_RMAP_STRINGS !! name = Some tag ->
  tag <> 116 -> tag <> 201 -> tag <> 406 ->
  meta_array b !! tag = Some v ->
  Forall (fun c => byte_val c < 0x80) v ->
  __getattr__ b name = Ok (ascii_text v).
Proof.
  intros Hn H1 H2 H3 Hv Hascii. unfold __getattr__.
  rewrite Hn, Hv. unfold EXTH_MAP_CONVERSIONS.
  destruct (Z.eqb_spec tag 116); [done|].
  destruct (Z.eqb_spec tag 201); [done|].
  destruct (Z.eqb_spec tag 406); [done|].
  cbn [default from_option id mbind result_bind].
  apply decode_ascii. exact Hascii.
Qed.

Lemma X17_witness :
  exists b, __init__ twice_creator_doc = Ok b
    /\ __getattr__ b "creator" = Ok (ascii_text (bytes_of_string "Bob")).
Proof.
  assert (E : exists b, __init__ twice_creator_doc = Ok b
                /\ meta_array b !! 100 = Some (bytes_of_string "Bob")).
  { vm_compute. eexists. split; reflexivity. }
  destruct E as (b & Hb & Hv). exists b. split; [exact Hb|].
  apply (X17_ascii_field_any_codepage b "creator" 100 _);
    [vm_compute; reflexivity | discriminate | discriminate | discriminate
    | exact Hv |].
  repeat constructor.
Defined.
